(** * ErrorFixer: the document-completeness and profile-token core

    A shallow embedding of the crew portal's model methods
    (attached_assets/models), upload helpers (attached_assets/utils) and
    the request handlers that drive them (routes.py):

    - the relational store is a pair of table sets, the unit of work
      ([session]) and what has been committed ([committed]);
    - Python objects loaded from the store are addressed by primary key;
    - what the environment decides (random values, the clock, whether a
      disk write goes through) is read from an oracle, one entry per call;
    - a Python exception is the [Raise] outcome of a computation, and the
      world reached so far is kept. *)

From Stdlib Require Import ZArith String Ascii List Floats Lia.
From stdpp Require Import gmap strings list sorting pretty.
Import ListNotations.
Local Open Scope string_scope.
Local Open Scope Z_scope.

(** ** Python values *)

Module Py.

(** A number held by an attribute: [int] or [float] (binary64). *)
Inductive num :=
| PyInt (n : Z)
| PyFloat (f : float).

Inductive exn :=
| OverflowError        (* int too large to convert to float *)
| ValueError           (* int() of a nan *)
| ZeroDivisionError
| OSError              (* a failed write under the upload folder *)
| ObjectDeletedError   (* attribute access on a row that is gone *)
| AttributeError       (* an attribute or method the object's class lacks *)
| IntegrityError       (* a statement the database refuses *)
| BuildError           (* url_for without a value the rule needs *)
| NotFound             (* werkzeug's 404, from get_or_404 *)
| Unauthorized.        (* flask_login's answer to an anonymous caller *)

(** [bool(s)] of a [str]. *)
Definition truthy_str (s : string) : bool :=
  match s with EmptyString => false | String _ _ => true end.

(** [bool(x)] of an attribute that is [None] or a [str]. *)
Definition truthy_ostr (o : option string) : bool :=
  match o with None => false | Some s => truthy_str s end.

(** [float(n)]: the nearest binary64, ties to even; too large raises. *)
Definition float_of_int (n : Z) : exn + float :=
  let f := SF2Prim (binary_normalize prec emax n 0 false) in
  if PrimFloat.is_infinity f then inl OverflowError else inr f.

(** [a / b] on two [int]s.  CPython rounds the exact quotient; for
    operands below 2^53 that is the quotient of the two conversions. *)
Definition int_truediv (a b : Z) : exn + float :=
  if b =? 0 then inl ZeroDivisionError
  else match float_of_int a, float_of_int b with
       | inr x, inr y => inr (PrimFloat.div x y)
       | inl e, _ | _, inl e => inl e
       end.

(** [int(f)]: truncation toward zero. *)
Definition int_of_float (f : float) : exn + Z :=
  match Prim2SF f with
  | S754_zero _ => inr 0
  | S754_infinity _ => inl OverflowError
  | S754_nan => inl ValueError
  | S754_finite s m e =>
      let a := match e with
               | Z0 => Zpos m
               | Zpos p => Zpos m * 2 ^ Zpos p
               | Zneg p => Zpos m / 2 ^ Zpos p
               end in
      inr (if s then - a else a)
  end.

(** [bool(x)] of a number. *)
Definition truthy_num (x : num) : bool :=
  match x with
  | PyInt n => negb (n =? 0)
  | PyFloat f => negb (PrimFloat.eqb f 0%float)
  end.

(** [x < 1024.0]; an [int] is compared with a [float] by value. *)
Definition lt_1024 (x : num) : bool :=
  match x with
  | PyInt n => n <? 1024
  | PyFloat f => PrimFloat.ltb f 1024%float
  end.

(** [x / 1024.0]. *)
Definition div_1024 (x : num) : exn + float :=
  match x with
  | PyInt n => match float_of_int n with
               | inr f => inr (PrimFloat.div f 1024%float)
               | inl e => inl e
               end
  | PyFloat f => inr (PrimFloat.div f 1024%float)
  end.

(** Tenths of [m * 2^e], rounded half to even on the exact value. *)
Definition round_tenths (m : positive) (e : Z) : Z :=
  match e with
  | Z0 => Zpos m * 10
  | Zpos p => Zpos m * 2 ^ Zpos p * 10
  | Zneg p =>
      let num := Zpos m * 10 in
      let den := 2 ^ Zpos p in
      let q := num / den in
      let r := num mod den in
      match (2 * r) ?= den with
      | Lt => q
      | Gt => q + 1
      | Eq => if Z.even q then q else q + 1
      end
  end.

(** [f"{x:.1f}"] of a [float]. *)
Definition format_1f_float (f : float) : string :=
  match Prim2SF f with
  | S754_zero s => if s then "-0.0" else "0.0"
  | S754_infinity s => if s then "-inf" else "inf"
  | S754_nan => "nan"
  | S754_finite s m e =>
      let t := round_tenths m e in
      (if s then "-" else "") +:+ pretty (t / 10) +:+ "." +:+ pretty (t mod 10)
  end.

(** [f"{x:.1f}"] of an attribute value; an [int] is converted first. *)
Definition format_1f (x : num) : exn + string :=
  match x with
  | PyFloat f => inr (format_1f_float f)
  | PyInt n => match float_of_int n with
               | inr f => inr (format_1f_float f)
               | inl e => inl e
               end
  end.

Definition hex_digit (n : N) : ascii :=
  match n with
  | 0 => "0" | 1 => "1" | 2 => "2" | 3 => "3" | 4 => "4" | 5 => "5"
  | 6 => "6" | 7 => "7" | 8 => "8" | 9 => "9" | 10 => "a" | 11 => "b"
  | 12 => "c" | 13 => "d" | 14 => "e" | _ => "f"
  end%N%char.

(** [bytes.hex()]. *)
Fixpoint hex (bs : list Byte.byte) : string :=
  match bs with
  | [] => ""
  | b :: bs' =>
      let n := Byte.to_N b in
      String (hex_digit (n / 16)) (String (hex_digit (n mod 16)) (hex bs'))
  end.

(** [os.path.join(a, b)] for a relative [b]. *)
Definition path_join (a b : string) : string :=
  match a with
  | "" => b
  | _ => if String.eqb (substring (String.length a - 1) 1 a) "/"
         then a +:+ b else a +:+ "/" +:+ b
  end.

End Py.

(** ** The relational schema (models) *)

(** [CrewMember]: the columns the core reads or writes, and the identity
    columns.  The primary key [id] is the key of the row in its table.
    Contact data, emergency contact and the legacy per-file columns are
    touched by none of the functions below and are left out.  Timestamps
    are points on the UTC clock. *)
Record CrewMember := {
  cm_name : string;
  cm_rank : string;
  passport : string;
  profile_token : option string;
  status : Z;
  admin_notes : option string;
  created_at : Z;
  updated_at : Z
}.

(** [CrewDocument]: one uploaded file.  [file_size] is declared as an
    Integer column; the Python attribute holds whatever was assigned. *)
Record CrewDocument := {
  doc_id : Z;
  crew_id : Z;
  document_type : string;
  document_category : string;
  filename : string;
  original_filename : string;
  file_size : option Py.num;
  mime_type : option string;
  upload_date : Z
}.

Definition set_profile_token (t : option string) (c : CrewMember) : CrewMember :=
  {| cm_name := cm_name c; cm_rank := cm_rank c;
     passport := passport c; profile_token := t; status := status c;
     admin_notes := admin_notes c; created_at := created_at c;
     updated_at := updated_at c |}.

Definition set_status (s : Z) (c : CrewMember) : CrewMember :=
  {| cm_name := cm_name c; cm_rank := cm_rank c;
     passport := passport c; profile_token := profile_token c; status := s;
     admin_notes := admin_notes c; created_at := created_at c;
     updated_at := updated_at c |}.

Definition set_admin_notes (n : option string) (c : CrewMember) : CrewMember :=
  {| cm_name := cm_name c; cm_rank := cm_rank c;
     passport := passport c; profile_token := profile_token c;
     status := status c; admin_notes := n; created_at := created_at c;
     updated_at := updated_at c |}.

Definition set_updated_at (t : Z) (c : CrewMember) : CrewMember :=
  {| cm_name := cm_name c; cm_rank := cm_rank c;
     passport := passport c; profile_token := profile_token c;
     status := status c; admin_notes := admin_notes c;
     created_at := created_at c; updated_at := t |}.

Definition set_file_size (x : option Py.num) (d : CrewDocument) : CrewDocument :=
  {| doc_id := doc_id d; crew_id := crew_id d;
     document_type := document_type d;
     document_category := document_category d; filename := filename d;
     original_filename := original_filename d; file_size := x;
     mime_type := mime_type d; upload_date := upload_date d |}.

(** The two tables.  [crew_members] is keyed by primary key;
    [crew_documents] is the log of inserted rows, oldest first, with the
    next value of its autoincrement key. *)
Record Tables := {
  crew_members : gmap Z CrewMember;
  crew_documents : list CrewDocument;
  next_doc_id : Z
}.

(** An uploaded file as werkzeug hands it over ([FileStorage]). *)
Record FileStorage := {
  fs_filename : option string;
  content_type : option string;
  stream : list Byte.byte
}.

(** What the environment answers at one call: [uuid.uuid4().hex],
    [secrets.token_bytes(32)], [datetime.utcnow()], and whether a
    [file.save] to the upload folder succeeds. *)
Record Env := {
  uuid4_hex : string;
  token_bytes : list Byte.byte;
  utcnow : Z;
  save_ok : bool
}.

(** The state a request runs against. *)
Record World := {
  session : Tables;                       (* db.session: the unit of work *)
  committed : Tables;                     (* what db.session.commit() made durable *)
  disk : gmap string (list Byte.byte);    (* files under the upload folder *)
  flashes : list (string * string);       (* flash(message, category) *)
  tick : nat                              (* oracle entries consumed *)
}.

Definition with_session (t : Tables) (w : World) : World :=
  {| session := t; committed := committed w; disk := disk w;
     flashes := flashes w; tick := tick w |}.

Definition with_committed (t : Tables) (w : World) : World :=
  {| session := session w; committed := t; disk := disk w;
     flashes := flashes w; tick := tick w |}.

Definition with_disk (d : gmap string (list Byte.byte)) (w : World) : World :=
  {| session := session w; committed := committed w; disk := d;
     flashes := flashes w; tick := tick w |}.

Definition with_flashes (f : list (string * string)) (w : World) : World :=
  {| session := session w; committed := committed w; disk := disk w;
     flashes := f; tick := tick w |}.

Definition next_tick (w : World) : World :=
  {| session := session w; committed := committed w; disk := disk w;
     flashes := flashes w; tick := S (tick w) |}.

(** ** Computations: a result or an exception, and the world after *)

Inductive Outcome (A : Type) :=
| Return (a : A)
| Raise (e : Py.exn).
Arguments Return {A} a.
Arguments Raise {A} e.

Definition M (A : Type) : Type := World -> Outcome A * World.

Definition raise {A} (e : Py.exn) : M A := fun w => (Raise e, w).

#[global] Instance M_ret : MRet M := fun A a w => (Return a, w).

#[global] Instance M_bind : MBind M := fun A B k m w =>
  match m w with
  | (Return a, w') => k a w'
  | (Raise e, w') => (Raise e, w')
  end.

Definition lift {A} (r : Py.exn + A) : M A :=
  match r with inr a => mret a | inl e => raise e end.

(** [for x in xs: acc.append(f x)], with [f] effectful. *)
Fixpoint map_m {A B} (f : A -> M B) (xs : list A) : M (list B) :=
  match xs with
  | [] => mret []
  | x :: xs' => y ← f x; ys ← map_m f xs'; mret (y :: ys)
  end.

(** ** The store and the request context *)

(** [order_by(CrewDocument.upload_date.desc())]. *)
Definition newer_first (d1 d2 : CrewDocument) : Prop :=
  upload_date d2 ≤ upload_date d1.

#[global] Instance newer_first_dec d1 d2 : Decision (newer_first d1 d2) :=
  Z_le_dec (upload_date d2) (upload_date d1).

(** [CrewDocument.query.filter_by(...).order_by(upload_date.desc()).all()]
    over a table.  Rows with the same [upload_date] come in the order the
    database picks; here, the one the merge sort leaves. *)
Definition select_newest_first (p : CrewDocument -> bool) (t : Tables)
  : list CrewDocument :=
  merge_sort newer_first (List.filter p (crew_documents t)).

Definition query_documents (p : CrewDocument -> bool) : M (list CrewDocument) :=
  fun w => (Return (select_newest_first p (session w)), w).

(** [CrewMember.query.get_or_404(crew_id)]: a reference to the row. *)
Definition get_or_404 (crew_id : Z) : M Z :=
  fun w => match crew_members (session w) !! crew_id with
           | Some _ => (Return crew_id, w)
           | None => (Raise Py.NotFound, w)
           end.

(** Reading and assigning attributes of a loaded [CrewMember]. *)
Definition getattr_crew (self : Z) : M CrewMember :=
  fun w => match crew_members (session w) !! self with
           | Some c => (Return c, w)
           | None => (Raise Py.ObjectDeletedError, w)
           end.

Definition setattr_crew (self : Z) (f : CrewMember -> CrewMember) : M unit :=
  fun w => match crew_members (session w) !! self with
           | Some c =>
               (Return tt,
                with_session
                  {| crew_members := <[self := f c]> (crew_members (session w));
                     crew_documents := crew_documents (session w);
                     next_doc_id := next_doc_id (session w) |} w)
           | None => (Raise Py.ObjectDeletedError, w)
           end.

(** Reading and assigning attributes of a loaded [CrewDocument]. *)
Definition getattr_doc (self : Z) : M CrewDocument :=
  fun w => match List.find (fun d => doc_id d =? self)
                   (crew_documents (session w)) with
           | Some d => (Return d, w)
           | None => (Raise Py.ObjectDeletedError, w)
           end.

Definition setattr_doc (self : Z) (f : CrewDocument -> CrewDocument) : M unit :=
  fun w => (Return tt,
            with_session
              {| crew_members := crew_members (session w);
                 crew_documents :=
                   List.map (fun d => if doc_id d =? self then f d else d)
                     (crew_documents (session w));
                 next_doc_id := next_doc_id (session w) |} w).

(** [db.session.commit()] where the pending changes are new document
    rows and applicant rows whose [updated_at] the handler assigned
    itself: the [onupdate] default of that column (models:73) applies
    only to an UPDATE that leaves the column out, which is the commit
    of [generate_profile_token] ([commit_profile_token] below). *)
Definition db_session_commit : M unit :=
  fun w => (Return tt, with_committed (session w) w).

(** [flash(message, category)]. *)
Definition flash (message category : string) : M unit :=
  fun w => (Return tt, with_flashes (flashes w ++ [(message, category)])%list w).

(** What a successful [file.save(path)] does, and [os.path.getsize(path)]. *)
Definition disk_write (path : string) (bs : list Byte.byte) : M unit :=
  fun w => (Return tt, with_disk (<[path := bs]> (disk w)) w).

Definition getsize (path : string) : M Z :=
  fun w => match disk w !! path with
           | Some bs => (Return (Z.of_nat (length bs)), w)
           | None => (Raise Py.OSError, w)
           end.

(** ** The document catalog and its per-applicant status *)

Record DocSpec := {
  spec_type : string;
  spec_name : string;
  required : bool
}.

(** A catalog entry after [get_document_categories] has added the keys
    ['files'], ['uploaded'], ['status'] and ['count']. *)
Record DocStatus := {
  spec : DocSpec;
  files : list CrewDocument;
  uploaded : bool;
  doc_status : string;
  count : nat
}.

Record Category (D : Type) := {
  category_name : string;
  documents : list D
}.
Arguments category_name {D} _.
Arguments documents {D} _.

(** The [categories] literal, in insertion order. *)
Definition categories_literal : list (string * Category DocSpec) :=
  [ ("identity",
     {| category_name := "Identity Documents";
        documents :=
          [ {| spec_type := "passport"; spec_name := "Passport Copy"; required := true |};
            {| spec_type := "government_id";
               spec_name := "Government ID (Aadhaar / PAN / SSN)"; required := false |};
            {| spec_type := "photo"; spec_name := "Photo (Passport Size)"; required := true |} ] |});
    ("medical",
     {| category_name := "Medical Documents";
        documents :=
          [ {| spec_type := "medical_certificate"; spec_name := "Medical Certificate";
               required := true |};
            {| spec_type := "yellow_fever"; spec_name := "Yellow Fever Certificate";
               required := false |} ] |});
    ("professional",
     {| category_name := "Professional Documents";
        documents :=
          [ {| spec_type := "cdc"; spec_name := "CDC (Seaman Book)"; required := true |};
            {| spec_type := "coc_cop"; spec_name := "COC/COP Certificate"; required := true |};
            {| spec_type := "stcw_certificates"; spec_name := "STCW Certificates";
               required := true |};
            {| spec_type := "gmdss_dce"; spec_name := "GMDSS/DCE Certificate";
               required := false |} ] |});
    ("other",
     {| category_name := "Other Documents";
        documents :=
          [ {| spec_type := "resume"; spec_name := "Resume/CV"; required := true |};
            {| spec_type := "sea_agreement"; spec_name := "SEA Agreement";
               required := false |} ] |}) ].

(** ** Classes and method lookup

    An object of one of the two model classes, as a reference to its row.
    Class CrewMember declares [__repr__], [get_status_name] and
    [get_status_class] (models:75-100); every [def] after that, from
    [get_file_size_formatted] down to [is_profile_complete], stands in
    the body of class CrewDocument (models:103-240). *)
Inductive Ref :=
| CrewMemberRef (id : Z)
| CrewDocumentRef (id : Z).

Definition declared_methods (self : Ref) : list string :=
  match self with
  | CrewMemberRef _ => ["__repr__"; "get_status_name"; "get_status_class"]
  | CrewDocumentRef _ =>
      ["__repr__"; "get_file_size_formatted"; "generate_profile_token";
       "get_document_categories"; "get_required_documents";
       "get_documents_by_category"; "get_all_documents";
       "get_profile_completion_percentage"; "is_profile_complete"]
  end.

(** [obj.name()]: Python looks the method up on the class of [obj];
    the base class [db.Model] supplies none of the names listed, and no
    column or relationship bears one of them. *)
Definition call_method {A} (self : Ref) (name : string) (body : Ref -> M A) : M A :=
  if bool_decide (name ∈ declared_methods self) then body self
  else raise Py.AttributeError.

(** ** Model methods

    The document queries from [get_document_categories] down to
    [is_profile_complete] read of [self] nothing but [self.id], which
    every model object has; they take that number as [self].
    [generate_profile_token] reads [self.profile_token] and
    [self.passport] and takes the object (Section Core). *)

(** The inline query of [get_document_categories] and its siblings. *)
Definition by_type (self : Z) (ty : string) (d : CrewDocument) : bool :=
  (crew_id d =? self) && String.eqb (document_type d) ty.



Definition annotate (doc : DocSpec) (doc_files : list CrewDocument) : DocStatus :=
  let up := (0 <? length doc_files)%nat in
  {| spec := doc;
     files := doc_files;
     uploaded := up;
     doc_status := if up then "complete" else "missing";
     count := length doc_files |}.

Definition get_document_categories (self : Z)
  : M (list (string * Category DocStatus)) :=
  map_m (fun kc : string * Category DocSpec =>
           docs ← map_m (fun doc =>
                           doc_files ← query_documents (by_type self (spec_type doc));
                           mret (annotate doc doc_files))
                        (documents kc.2);
           mret (kc.1, {| category_name := category_name kc.2; documents := docs |}))
        categories_literal.




(** The two accumulators of [get_profile_completion_percentage]:
    [(required_docs, uploaded_docs)] after the nested loops. *)
Definition collect_required (categories : list (string * Category DocStatus))
  : list DocStatus * list DocStatus :=
  List.fold_left
    (fun acc kc =>
       List.fold_left
         (fun (acc : list DocStatus * list DocStatus) doc =>
            if required (spec doc) then
              ((acc.1 ++ [doc])%list,
               if uploaded doc then (acc.2 ++ [doc])%list else acc.2)
            else acc)
         (documents kc.2) acc)
    categories ([], []).

(** The body of [get_profile_completion_percentage] after the call of
    [get_document_categories]. *)
Definition completion_of (categories : list (string * Category DocStatus))
  : Py.exn + Z :=
  let '(required_docs, uploaded_docs) := collect_required categories in
  match required_docs with
  | [] => inr 100
  | _ =>
      match Py.int_truediv (Z.of_nat (length uploaded_docs))
                           (Z.of_nat (length required_docs)) with
      | inr q => Py.int_of_float (PrimFloat.mul q 100%float)
      | inl e => inl e
      end
  end.

Definition get_profile_completion_percentage (self : Z) : M Z :=
  categories ← get_document_categories self;
  lift (completion_of categories).


(** [CrewDocument.get_file_size_formatted]: the loop over the units, on
    the value of [self.file_size] just read or assigned. *)
Fixpoint size_loop (self : Z) (units : list string) (x : Py.num) : M string :=
  match units with
  | [] => s ← lift (Py.format_1f x); mret (s +:+ " TB")
  | unit :: units' =>
      if Py.lt_1024 x then
        s ← lift (Py.format_1f x); mret (s +:+ " " +:+ unit)
      else
        y ← lift (Py.div_1024 x);
        setattr_doc self (set_file_size (Some (Py.PyFloat y)));;
        size_loop self units' (Py.PyFloat y)
  end.

Definition get_file_size_formatted (self : Z) : M string :=
  d ← getattr_doc self;
  match file_size d with
  | None => mret "Unknown size"
  | Some x =>
      if negb (Py.truthy_num x) then mret "Unknown size"
      else size_loop self ["B"; "KB"; "MB"; "GB"] x
  end.

Section Core.

(** The oracle, the configured upload folder, and the library functions
    the code calls: [werkzeug.utils.secure_filename],
    [os.path.splitext], [hashlib.sha256(s.encode()).hexdigest()] and
    [flask.url_for] with [_external=True]. *)
Variable E : nat -> Env.
Variable UPLOAD_FOLDER : string.
Variable secure_filename : string -> string.
Variable splitext : string -> string * string.
Variable sha256_hexdigest : string -> string.
Variable url_for_external : string -> list (string * string) -> string.

(** One answer of the environment. *)
Definition ask {A} (f : Env -> A) : M A :=
  fun w => (Return (f (E (tick w))), next_tick w).

(** Whether another applicant's row already holds the token. *)
Definition token_taken (t : Tables) (self : Z) (token : option string) : bool :=
  match token with
  | None => false
  | Some _ =>
      existsb (fun kc : Z * CrewMember =>
                 negb (kc.1 =? self) && bool_decide (profile_token kc.2 = token))
              (map_to_list (crew_members t))
  end.

(** The unique index on [crew_members.profile_token] (models:65),
    checked for the row of [self]. *)
Definition check_unique_profile_token (self : Z) : M unit :=
  fun w => match crew_members (session w) !! self with
           | Some c =>
               if token_taken (session w) self (profile_token c)
               then (Raise Py.IntegrityError, w)
               else (Return tt, w)
           | None => (Return tt, w)
           end.

(** [db.session.commit()] with a new [profile_token] pending on an
    applicant's row: the UPDATE takes [updated_at] from its [onupdate]
    default, the clock (models:73), and the database refuses it when
    another row holds the same token. *)
Definition commit_profile_token (self : Z) : M unit :=
  now ← ask utcnow;
  check_unique_profile_token self;;
  setattr_crew self (set_updated_at now);;
  db_session_commit.

(** [generate_profile_token] (models:134).  Its first statement reads
    [self.profile_token]: class CrewDocument, whose method this is, has
    no such column or attribute, so on a document the read raises.  On
    an object that has the attribute the body runs as written. *)
Definition generate_profile_token (self : Ref) : M (option string) :=
  match self with
  | CrewDocumentRef _ => raise Py.AttributeError
  | CrewMemberRef i =>
      c ← getattr_crew i;
      if negb (Py.truthy_ostr (profile_token c)) then
        random_bytes ← ask token_bytes;
        let token_data :=
          pretty i +:+ "_" +:+ passport c +:+ "_" +:+ Py.hex random_bytes in
        setattr_crew i (set_profile_token (Some (sha256_hexdigest token_data)));;
        commit_profile_token i;;
        c' ← getattr_crew i;
        mret (profile_token c')
      else
        mret (profile_token c)
  end.

(** *** Upload helpers (utils) *)

(** [bool(file)] for a [FileStorage] or [None]: werkzeug's
    [FileStorage.__bool__] is [bool(self.filename)]. *)
Definition file_truthy (file : option FileStorage) : bool :=
  match file with
  | None => false
  | Some f => Py.truthy_ostr (fs_filename f)
  end.

(** [bool(file.filename)], read where [file] is truthy. *)
Definition filename_truthy (file : option FileStorage) : bool :=
  match file with
  | None => false
  | Some f => Py.truthy_ostr (fs_filename f)
  end.

(** [not file or not file.filename]. *)
Definition file_rejected (file : option FileStorage) : bool :=
  negb (file_truthy file) || negb (filename_truthy file).

(** [file.save(path)]: the bytes reach the disk, or the write raises. *)
Definition file_save (f : FileStorage) (path : string) : M unit :=
  ask save_ok ≫= λ ok : bool,
    if ok then disk_write path (stream f) else raise Py.OSError.

(** [db.session.add(doc_record)]: the row enters the unit of work with
    its primary key and the column default of [upload_date]. *)
Definition db_session_add (crew_id : Z) (document_type document_category : string)
    (filename original_filename : string) (file_size : Z)
    (mime_type : option string) : M CrewDocument :=
  now ← ask utcnow;
  (fun w =>
    let t := session w in
    let d := {| doc_id := next_doc_id t; crew_id := crew_id;
                document_type := document_type;
                document_category := document_category;
                filename := filename;
                original_filename := original_filename;
                file_size := Some (Py.PyInt file_size);
                mime_type := mime_type;
                upload_date := now |} in
    (Return d,
     with_session {| crew_members := crew_members t;
                     crew_documents := (crew_documents t ++ [d])%list;
                     next_doc_id := next_doc_id t + 1 |} w)) : M CrewDocument.

(** The name under which [save_crew_document] stores a file, given the
    answer of [uuid4().hex]. *)
Definition unique_filename_of (f : FileStorage) (u : string) : string :=
  let '(name, ext) := splitext (secure_filename (default "" (fs_filename f))) in
  "crew_" +:+ substring 0 8 u +:+ "_" +:+ name +:+ ext.

Definition save_crew_document (file : option FileStorage) (crew_id : Z)
    (document_type document_category : string) : M (option CrewDocument) :=
  if file_rejected file then mret None
  else
    match file with
    | None => mret None
    | Some f =>
        let file_filename := default "" (fs_filename f) in
        let filename := secure_filename file_filename in
        let '(name, ext) := splitext filename in
        u ← ask uuid4_hex;
        let unique_filename :=
          "crew_" +:+ substring 0 8 u +:+ "_" +:+ name +:+ ext in
        (* os.makedirs(upload_path, exist_ok=True): the disk is a map from
           paths to contents, with no directories to create *)
        let upload_path := Py.path_join UPLOAD_FOLDER "crew_documents" in
        let file_path := Py.path_join upload_path unique_filename in
        file_save f file_path;;
        file_size ← getsize file_path;
        doc_record ← db_session_add crew_id document_type document_category
                       ("crew_documents/" +:+ unique_filename)
                       file_filename file_size
                       (if Py.truthy_ostr (content_type f) then content_type f
                        else Some "application/octet-stream");
        db_session_commit;;
        mret (Some doc_record)
    end.

(** The [files] argument: [None], one [FileStorage], or a list. *)
Inductive FilesArg :=
| NoFiles
| OneFile (f : FileStorage)
| FileList (l : list (option FileStorage)).

(** [bool(files)]. *)
Definition files_truthy (files : FilesArg) : bool :=
  match files with
  | NoFiles => false
  | OneFile f => file_truthy (Some f)
  | FileList l => match l with [] => false | _ => true end
  end.

(** [if not isinstance(files, list): files = [files]]. *)
Definition files_as_list (files : FilesArg) : list (option FileStorage) :=
  match files with
  | FileList l => l
  | OneFile f => [Some f]
  | NoFiles => [None]
  end.

(** The [for file in files] loop, with [saved_docs] as accumulator. *)
Fixpoint save_each (files : list (option FileStorage)) (crew_id : Z)
    (document_type document_category : string)
    (saved_docs : list CrewDocument) : M (list CrewDocument) :=
  match files with
  | [] => mret saved_docs
  | file :: files' =>
      if file_truthy file && filename_truthy file then
        doc_record ← save_crew_document file crew_id document_type document_category;
        save_each files' crew_id document_type document_category
          (match doc_record with
           | Some d => (saved_docs ++ [d])%list
           | None => saved_docs
           end)
      else
        save_each files' crew_id document_type document_category saved_docs
  end.

Definition save_multiple_crew_documents (files : FilesArg) (crew_id : Z)
    (document_type document_category : string) : M (list CrewDocument) :=
  if negb (files_truthy files) then mret []
  else
    save_each (files_as_list files) crew_id document_type document_category [].

(** *** Request handlers (routes) *)

(** What a handler reads from the request: whether flask_login sees an
    authenticated user, [request.form], and the submitted
    CrewProfileDocumentForm (the answer of [validate_on_submit()] and
    the [data] of its file fields).  [validate_on_submit()] is False for
    every GET; the rule of [crew_private_profile] (routes.py:130) names
    no [methods], so Flask passes only GET on to that handler, and the
    requests it sees have the field false.  The handlers are stated for
    every value of the field. *)
Record Request := {
  authenticated : bool;
  form : gmap string string;
  validate_on_submit : bool;
  field_data : gmap string FilesArg
}.

Inductive Response :=
| Redirect (endpoint : string) (values : list (string * string))
| RenderTemplate (template : string) (crew_member : Z).

(** [@login_required]. *)
Definition login_required {A} (req : Request) (view : M A) : M A :=
  if authenticated req then view else raise Py.Unauthorized.

Definition update_crew_status (req : Request) (crew_id : Z) : M Response :=
  login_required req (
    crew_member ← get_or_404 crew_id;
    let action := form req !! "action" in
    let notes := default "" (form req !! "notes") in
    (if decide (action = Some "approve") then
       setattr_crew crew_member (set_status 3);;
       setattr_crew crew_member (set_admin_notes (Some notes));;
       flash "Crew member approved successfully." "success"
     else if decide (action = Some "reject") then
       setattr_crew crew_member (set_status (-1));;
       setattr_crew crew_member (set_admin_notes (Some notes));;
       flash "Crew member rejected." "warning"
     else if decide (action = Some "flag") then
       setattr_crew crew_member (set_status (-2));;
       setattr_crew crew_member (set_admin_notes (Some notes));;
       flash "Crew member flagged for review." "info"
     else mret tt);;
    now ← ask utcnow;
    setattr_crew crew_member (set_updated_at now);;
    db_session_commit;;
    mret (Redirect "crew_profile" [("crew_id", pretty crew_id)])).

(** [generate_profile_link] (routes.py:401): the admin's request for an
    applicant's private link.  [url_for_external] stands for
    [url_for(..., _external=True)], which depends on the server name. *)
Definition generate_profile_link (req : Request) (crew_id : Z) : M Response :=
  login_required req (
    crew_member ← get_or_404 crew_id;
    token ← call_method (CrewMemberRef crew_member) "generate_profile_token"
              generate_profile_token;
    match token with
    | None => raise Py.BuildError
    | Some token =>
        let profile_url :=
          url_for_external "crew_private_profile"
            [("crew_id", pretty crew_id); ("token", token)] in
        flash ("Profile link generated: " +:+ profile_url) "success";;
        mret (Redirect "crew_profile" [("crew_id", pretty crew_id)])
    end).

(** The [document_categories] literal of [crew_private_profile]:
    field name, category, display name, in insertion order. *)
Definition document_categories : list (string * (string * string)) :=
  [ ("passport", ("identity", "Passport Copy"));
    ("government_id", ("identity", "Government ID"));
    ("photo", ("identity", "Photo"));
    ("medical_certificate", ("medical", "Medical Certificate"));
    ("yellow_fever", ("medical", "Yellow Fever Certificate"));
    ("cdc", ("professional", "CDC (Seaman Book)"));
    ("coc_cop", ("professional", "COC/COP Certificate"));
    ("stcw_certificates", ("professional", "STCW Certificates"));
    ("gmdss_dce", ("professional", "GMDSS/DCE Certificate"));
    ("resume", ("other", "Resume/CV"));
    ("sea_agreement", ("other", "SEA Agreement")) ].

(** [f"{name} ({count} file{'s' if count > 1 else ''})"]. *)
Definition uploaded_label (name : string) (count : nat) : string :=
  name +:+ " (" +:+ pretty count +:+ " file"
    +:+ (if (1 <? count)%nat then "s" else "") +:+ ")".

(** [", ".join(xs)]. *)
Fixpoint join_comma (xs : list string) : string :=
  match xs with
  | [] => ""
  | [x] => x
  | x :: xs' => x +:+ ", " +:+ join_comma xs'
  end.

(** The loop over [document_categories.items()], with [updated_docs]
    as accumulator. *)
Fixpoint upload_fields (req : Request) (crew_member : Z)
    (fields : list (string * (string * string)))
    (updated_docs : list string) : M (list string) :=
  match fields with
  | [] => mret updated_docs
  | (field_name, (category, name)) :: fields' =>
      let data := default NoFiles (field_data req !! field_name) in
      if files_truthy data then
        saved_docs ← save_multiple_crew_documents data crew_member
                       field_name category;
        upload_fields req crew_member fields'
          (match saved_docs with
           | [] => updated_docs
           | _ => (updated_docs ++ [uploaded_label name (length saved_docs)])%list
           end)
      else upload_fields req crew_member fields' updated_docs
  end.

(** [crew_private_profile] below the token check: the document form. *)
Definition profile_documents (req : Request) (crew_id : Z) (token : string)
    (crew_member : Z) : M Response :=
  if validate_on_submit req then
    updated_docs ← upload_fields req crew_member document_categories [];
    match updated_docs with
    | [] => flash "No files were selected for upload." "warning"
    | _ =>
        now ← ask utcnow;
        setattr_crew crew_member (set_updated_at now);;
        db_session_commit;;
        flash ("Successfully uploaded: " +:+ join_comma updated_docs) "success"
    end;;
    mret (Redirect "crew_private_profile"
            [("crew_id", pretty crew_id); ("token", token)])
  else
    mret (RenderTemplate "crew_private_profile.html" crew_member).

Definition crew_private_profile (req : Request) (crew_id : Z) (token : string)
  : M Response :=
  crew_member ← get_or_404 crew_id;
  c ← getattr_crew crew_member;
  if negb (Py.truthy_ostr (profile_token c))
     || negb (bool_decide (profile_token c = Some token))
  then
    flash "Invalid or expired profile link." "error";;
    mret (Redirect "index" [])
  else
    profile_documents req crew_id token crew_member.

End Core.

(** ** Read-only views used to state the properties *)



(** Whether the table holds at least one record whose owner is the
    applicant and whose document type is the given one. *)
Definition has_record (t : Tables) (self : Z) (ty : string) : bool :=
  existsb (fun d => (crew_id d =? self) && String.eqb (document_type d) ty)
          (crew_documents t).

(** The name a file of a batch carries: none for a missing file and for
    one whose filename is [None] or the empty string. *)
Definition file_name (file : option FileStorage) : option string :=
  match file with
  | Some f =>
      match fs_filename f with
      | Some (String a s) => Some (String a s)
      | _ => None
      end
  | None => None
  end.

Definition named (file : option FileStorage) : bool :=
  match file_name file with Some _ => true | None => false end.

(** The names of the named files of a batch, in order. *)
Definition file_names (files : list (option FileStorage)) : list string :=
  omap file_name files.


(** ** Sample data *)

Module Sample.

Definition E (n : nat) : Env :=
  {| uuid4_hex := "9f1c2ab47d3e4f60a1b2c3d4e5f60718";
     token_bytes := List.repeat Byte.x5a 32;
     utcnow := 1754723152 + Z.of_nat n;
     save_ok := true |}.

(** An environment whose disk refuses every write. *)
Definition E_full (n : nat) : Env :=
  {| uuid4_hex := uuid4_hex (E n); token_bytes := token_bytes (E n);
     utcnow := utcnow (E n); save_ok := false |}.

Definition UPLOAD_FOLDER : string := "uploads".

(** Stand-ins for the library functions: file names that are already
    safe, a split at the first dot, and a digest of 64 hex digits. *)
Definition secure_filename (s : string) : string := s.

Fixpoint splitext (s : string) : string * string :=
  match s with
  | EmptyString => ("", "")
  | String c s' =>
      if Ascii.eqb c "."%char then ("", s)
      else let '(n, e) := splitext s' in (String c n, e)
  end.

Definition sha256_hexdigest (s : string) : string :=
  Py.hex (List.repeat Byte.xc3 32).

Definition url_for_external (endpoint : string) (values : list (string * string))
  : string :=
  "https://portal.example/" +:+ endpoint +:+ "/"
    +:+ String.concat "/" (List.map snd values).

Definition crew : CrewMember :=
  {| cm_name := "A. Mariner"; cm_rank := "Second Officer"; passport := "X1";
     profile_token := Some "xyz"; status := 0;
     admin_notes := Some "first review pending";
     created_at := 1754700000; updated_at := 1754700000 |}.

Definition tables : Tables :=
  {| crew_members := {[ 42 := crew ]}; crew_documents := []; next_doc_id := 1 |}.

Definition world : World :=
  {| session := tables; committed := tables; disk := ∅; flashes := []; tick := 0 |}.

(** The same store without any applicant. *)
Definition no_tables : Tables :=
  {| crew_members := ∅; crew_documents := []; next_doc_id := 1 |}.

Definition empty_world : World :=
  {| session := no_tables; committed := no_tables; disk := ∅; flashes := [];
     tick := 0 |}.

(** Applicant 42 before a token is issued. *)
Definition fresh_tables : Tables :=
  {| crew_members := {[ 42 := set_profile_token None crew ]};
     crew_documents := []; next_doc_id := 1 |}.

Definition fresh_world : World :=
  {| session := fresh_tables; committed := fresh_tables; disk := ∅;
     flashes := []; tick := 0 |}.

Definition passport_scan : FileStorage :=
  {| fs_filename := Some "passport.pdf"; content_type := Some "application/pdf";
     stream := [Byte.x25; Byte.x50; Byte.x44; Byte.x46] |}.

Definition passport_rescan : FileStorage :=
  {| fs_filename := Some "passport2.pdf"; content_type := None;
     stream := [Byte.x25; Byte.x50; Byte.x44; Byte.x46; Byte.x2d] |}.

(** The part of a multi-file field the browser left empty. *)
Definition empty_file : FileStorage :=
  {| fs_filename := Some ""; content_type := Some "application/octet-stream";
     stream := [] |}.

Definition admin_request (action notes : string) : Request :=
  {| authenticated := true;
     form := {[ "action" := action; "notes" := notes ]};
     validate_on_submit := false;
     field_data := ∅ |}.

Definition visit : Request :=
  {| authenticated := false; form := ∅; validate_on_submit := false;
     field_data := ∅ |}.

(** A stored document of 2048 bytes. *)
Definition stored_doc : CrewDocument :=
  {| doc_id := 1; crew_id := 42; document_type := "passport";
     document_category := "identity";
     filename := "crew_documents/crew_9f1c2ab4_passport.pdf";
     original_filename := "passport.pdf";
     file_size := Some (Py.PyInt 2048);
     mime_type := Some "application/pdf"; upload_date := 1754723152 |}.

Definition doc_tables : Tables :=
  {| crew_members := {[ 42 := crew ]}; crew_documents := [stored_doc];
     next_doc_id := 2 |}.

Definition doc_world : World :=
  {| session := doc_tables; committed := doc_tables; disk := ∅; flashes := [];
     tick := 0 |}.

End Sample.

(** ** Further methods, helpers and handlers *)

(** *** Status labels (CrewMember.get_status_name, get_status_class) *)

(** The [status_names] and [status_classes] dict literals. *)
Definition status_names : gmap Z string :=
  <[0 := "Registered"]> (<[1 := "Screening"]> (<[2 := "Documents Verified"]>
  (<[3 := "Approved"]> (<[-1 := "Rejected"]> (<[-2 := "Flagged"]> ∅))))).

Definition status_classes : gmap Z string :=
  <[0 := "secondary"]> (<[1 := "warning"]> (<[2 := "info"]>
  (<[3 := "success"]> (<[-1 := "danger"]> (<[-2 := "dark"]> ∅))))).

(** [status_names.get(self.status, "Unknown")]. *)
Definition get_status_name (self : Z) : M string :=
  c ← getattr_crew self;
  mret (default "Unknown" (status_names !! status c)).

(** [status_classes.get(self.status, "secondary")]. *)
Definition get_status_class (self : Z) : M string :=
  c ← getattr_crew self;
  mret (default "secondary" (status_classes !! status c)).

(** *** File names (allowed_file)

    The characters of a name are code points below 256. *)

(** [c.lower()] of one character: A-Z, and the capital letters of
    Latin-1 (U+00C0 to U+00DE without the multiplication sign). *)
Definition lower_char (c : ascii) : ascii :=
  let n := N_of_ascii c in
  if ((65 <=? n) && (n <=? 90)
      || (192 <=? n) && (n <=? 222) && negb (n =? 215))%N
  then ascii_of_N (n + 32) else c.

(** [s.lower()]. *)
Fixpoint lower (s : string) : string :=
  match s with
  | EmptyString => EmptyString
  | String c s' => String (lower_char c) (lower s')
  end.

(** ['.' in s]. *)
Fixpoint dot_in (s : string) : bool :=
  match s with
  | EmptyString => false
  | String c s' => Ascii.eqb c "."%char || dot_in s'
  end.

(** [s.rsplit('.', 1)]: the two parts around the last dot, or [None]
    where the list has the one element [s]. *)
Fixpoint rsplit_dot (s : string) : option (string * string) :=
  match s with
  | EmptyString => None
  | String c s' =>
      match rsplit_dot s' with
      | Some (a, b) => Some (String c a, b)
      | None => if Ascii.eqb c "."%char then Some (EmptyString, s') else None
      end
  end.

(** ['.' in filename and filename.rsplit('.', 1)[1].lower() in allowed_extensions]. *)
Definition allowed_file (filename : string) (allowed_extensions : list string) : bool :=
  dot_in filename
  && match rsplit_dot filename with
     | Some (_, ext) => bool_decide (lower ext ∈ allowed_extensions)
     | None => false
     end.

(** *** The legacy upload helper (save_uploaded_file) *)

(** [os.path.join(a, b)]: an absolute [b] replaces [a]. *)
Definition os_path_join (a b : string) : string :=
  match b with
  | String "/" _ => b
  | _ => Py.path_join a b
  end.

Section Legacy.

Variable E : nat -> Env.
Variable UPLOAD_FOLDER : string.
Variable secure_filename : string -> string.
Variable splitext : string -> string * string.

Definition save_uploaded_file (file : option FileStorage) (folder_type : string)
  : M (option string) :=
  if file_truthy file && filename_truthy file then
    match file with
    | None => mret None
    | Some f =>
        let filename := secure_filename (default "" (fs_filename f)) in
        let '(name, ext) := splitext filename in
        u ← ask E uuid4_hex;
        let unique_filename :=
          folder_type +:+ "_" +:+ substring 0 8 u +:+ "_" +:+ name +:+ ext in
        (* os.makedirs(upload_path, exist_ok=True): no directories in the
           model of the disk *)
        let upload_path := os_path_join UPLOAD_FOLDER folder_type in
        let file_path := os_path_join upload_path unique_filename in
        file_save E f file_path;;
        mret (Some (folder_type +:+ "/" +:+ unique_filename))
    end
  else mret None.

(** The name under which [save_uploaded_file] stores a file, given the
    answer of [uuid4().hex]. *)
Definition legacy_filename_of (folder_type : string) (f : FileStorage) (u : string)
  : string :=
  let '(name, ext) := splitext (secure_filename (default "" (fs_filename f))) in
  folder_type +:+ "_" +:+ substring 0 8 u +:+ "_" +:+ name +:+ ext.

End Legacy.

(** A folder name that is not empty and neither starts nor ends with a
    slash, like the 'crew' and 'staff' of the callers. *)
Definition plain_folder (s : string) : Prop :=
  match s with
  | EmptyString => False
  | String c _ => c <> "/"%char
  end
  /\ String.eqb (substring (String.length s - 1) 1 s) "/" = false.

(** *** Helpers of the statements below *)

(** The decimal rendering the size helper is checked against below
    1024: the integer followed by ".0". *)
Definition renders_as_integer (n : nat) : bool :=
  match Py.format_1f (Py.PyInt (Z.of_nat n)) with
  | inr s => String.eqb s (pretty (Z.of_nat n) +:+ ".0")
  | inl _ => false
  end.

(** Whether an attribute value is a [float]. *)
Definition is_float (x : option Py.num) : bool :=
  match x with
  | Some (Py.PyFloat _) => true
  | _ => false
  end.

(** [t'] is [t] with the rows [news] appended, keyed with the next values
    of the autoincrement key and all belonging to [owner]; the applicants
    are the same. *)
Definition appended (owner : Z) (t t' : Tables) (news : list CrewDocument) : Prop :=
  crew_documents t' = (crew_documents t ++ news)%list
  /\ next_doc_id t' = next_doc_id t + Z.of_nat (length news)
  /\ List.map doc_id news
     = List.map (fun k => next_doc_id t + Z.of_nat k) (seq 0 (length news))
  /\ Forall (fun d => crew_id d = owner) news.

(** The (document type, category key) pairs of the models' catalog. *)
Definition catalog_pairs : list (string * string) :=
  List.flat_map
    (fun kc : string * Category DocSpec =>
       List.map (fun doc => (spec_type doc, kc.1)) (documents kc.2))
    categories_literal.

(** What uploads for [owner] may have done between two worlds: rows
    appended (each satisfying [P]), applicants and flashed messages
    untouched, and the committed tables either untouched or equal to the
    session's. *)
Definition upload_effect (owner : Z) (P : CrewDocument -> Prop) (w w' : World)
    (news : list CrewDocument) : Prop :=
  appended owner (session w) (session w') news
  /\ crew_members (session w') = crew_members (session w)
  /\ flashes w' = flashes w
  /\ Forall P news
  /\ (news = [] /\ committed w' = committed w \/ committed w' = session w').

(** *** Staff members (StaffMember, update_staff_status)

    The staff_members table shares no row with the crew tables and is
    kept apart from them: the state of a staff request is the table in
    the unit of work, the committed table, the flashed messages and the
    oracle entries consumed. *)

Record StaffMember := {
  full_name : string;
  position_applying : string;
  department : string;
  staff_status : Z;
  staff_admin_notes : option string;
  staff_created_at : Z;
  staff_updated_at : Z
}.

Record StaffWorld := {
  staff_session : gmap Z StaffMember;
  staff_committed : gmap Z StaffMember;
  staff_flashes : list (string * string);
  staff_tick : nat
}.

Definition staff_status_names : gmap Z string :=
  <[1 := "Screening"]> (<[3 := "Approved"]> (<[-1 := "Rejected"]> ∅)).

Definition staff_status_classes : gmap Z string :=
  <[1 := "warning"]> (<[3 := "success"]> (<[-1 := "danger"]> ∅)).

(** [StaffMember.get_status_name], [get_status_class]. *)
Definition staff_get_status_name (self : StaffMember) : string :=
  default "Unknown" (staff_status_names !! staff_status self).

Definition staff_get_status_class (self : StaffMember) : string :=
  default "warning" (staff_status_classes !! staff_status self).

Definition staff_decide (s : Z) (notes : string) (self : StaffMember) : StaffMember :=
  {| full_name := full_name self; position_applying := position_applying self;
     department := department self; staff_status := s;
     staff_admin_notes := Some notes; staff_created_at := staff_created_at self;
     staff_updated_at := staff_updated_at self |}.

Definition staff_touch (now : Z) (self : StaffMember) : StaffMember :=
  {| full_name := full_name self; position_applying := position_applying self;
     department := department self; staff_status := staff_status self;
     staff_admin_notes := staff_admin_notes self;
     staff_created_at := staff_created_at self; staff_updated_at := now |}.

Section Staff.

Variable E : nat -> Env.

Definition update_staff_status (req : Request) (staff_id : Z) (sw : StaffWorld)
  : Outcome Response * StaffWorld :=
  if authenticated req then
    match staff_session sw !! staff_id with
    | None => (Raise Py.NotFound, sw)
    | Some staff_member =>
        let action := form req !! "action" in
        let notes := default "" (form req !! "notes") in
        let '(staff_member, flashed) :=
          if decide (action = Some "approve") then
            (staff_decide 3 notes staff_member,
             [("Staff member approved successfully.", "success")])
          else if decide (action = Some "reject") then
            (staff_decide (-1) notes staff_member,
             [("Staff member rejected.", "warning")])
          else (staff_member, []) in
        let staff_member := staff_touch (utcnow (E (staff_tick sw))) staff_member in
        let t := <[staff_id := staff_member]> (staff_session sw) in
        (Return (Redirect "staff_profile" [("staff_id", pretty staff_id)]),
         {| staff_session := t; staff_committed := t;
            staff_flashes := (staff_flashes sw ++ flashed)%list;
            staff_tick := S (staff_tick sw) |})
    end
  else (Raise Py.Unauthorized, sw).

End Staff.

(** *** More sample data *)

Module SampleMore.

(** An environment whose [uuid4] answers differ from call to call. *)
Definition E_varied (n : nat) : Env :=
  {| uuid4_hex := pretty (n mod 10)%nat +:+ "f1c2ab47d3e4f60a1b2c3d4e5f60718";
     token_bytes := token_bytes (Sample.E n);
     utcnow := utcnow (Sample.E n);
     save_ok := true |}.

(** An environment in which the second write of a request fails. *)
Definition E_second_write_fails (n : nat) : Env :=
  {| uuid4_hex := uuid4_hex (Sample.E n);
     token_bytes := token_bytes (Sample.E n);
     utcnow := utcnow (Sample.E n);
     save_ok := negb (n =? 4)%nat |}.

(** Another file with the name of [Sample.passport_scan]. *)
Definition passport_again : FileStorage :=
  {| fs_filename := Some "passport.pdf"; content_type := Some "application/pdf";
     stream := [Byte.x25; Byte.x50; Byte.x44; Byte.x46; Byte.x0a] |}.

Definition staff : StaffMember :=
  {| full_name := "B. Clerk"; position_applying := "Crewing Officer";
     department := "Crewing"; staff_status := 1; staff_admin_notes := None;
     staff_created_at := 1754700000; staff_updated_at := 1754700000 |}.

Definition staff_world : StaffWorld :=
  {| staff_session := {[ 7 := staff ]}; staff_committed := {[ 7 := staff ]};
     staff_flashes := []; staff_tick := 0 |}.

End SampleMore.

(** * Properties *)

(** ** Running the primitives *)

Lemma setattr_crew_run self f w c :
  crew_members (session w) !! self = Some c ->
  setattr_crew self f w
  = (Return tt,
     with_session
       {| crew_members := <[self := f c]> (crew_members (session w));
          crew_documents := crew_documents (session w);
          next_doc_id := next_doc_id (session w) |} w).
Proof. intros H. unfold setattr_crew. now rewrite H. Qed.

Lemma getattr_crew_run self w c :
  crew_members (session w) !! self = Some c ->
  getattr_crew self w = (Return c, w).
Proof. intros H. unfold getattr_crew. now rewrite H. Qed.

Lemma get_or_404_run crew_id w c :
  crew_members (session w) !! crew_id = Some c ->
  get_or_404 crew_id w = (Return crew_id, w).
Proof. intros H. unfold get_or_404. now rewrite H. Qed.

Lemma get_or_404_missing crew_id w :
  crew_members (session w) !! crew_id = None ->
  get_or_404 crew_id w = (Raise Py.NotFound, w).
Proof. intros H. unfold get_or_404. now rewrite H. Qed.

Lemma mbind_run {A B} (m : M A) (k : A -> M B) w :
  (m ≫= k) w
  = match m w with
    | (Return a, w') => k a w'
    | (Raise e, w') => (Raise e, w')
    end.
Proof. reflexivity. Qed.

(** Assign an attribute of a row whose current value is on top of the
    session's map. *)
Ltac assign :=
  erewrite setattr_crew_run by (cbn; first [eassumption | apply lookup_insert_eq]);
  cbn.

Lemma In_action_cases (a : string) (s : Z) :
  In (a, s) [("approve", 3); ("reject", -1); ("flag", -2)] ->
  (a = "approve" /\ s = 3) \/ (a = "reject" /\ s = -1) \/ (a = "flag" /\ s = -2).
Proof. simpl. intros [H|[H|[H|[]]]]; inversion H; auto. Qed.

(** ** The status workflow (update_crew_status) *)

(** C4: for an applicant in the store, whatever its current status and
    notes, an authenticated request with action approve, reject or flag
    ends with status 3, -1 or -2, with admin_notes equal to the supplied
    note alone, with updated_at equal to the clock reading of the
    request, every other column as before, and the row committed. *)
Theorem update_crew_status_sets E req crew_id w c a s :
  authenticated req = true ->
  crew_members (session w) !! crew_id = Some c ->
  form req !! "action" = Some a ->
  In (a, s) [("approve", 3); ("reject", -1); ("flag", -2)] ->
  exists w',
    update_crew_status E req crew_id w
      = (Return (Redirect "crew_profile" [("crew_id", pretty crew_id)]), w')
    /\ crew_members (session w') !! crew_id
       = Some {| cm_name := cm_name c; cm_rank := cm_rank c; passport := passport c;
                 profile_token := profile_token c; status := s;
                 admin_notes := Some (default "" (form req !! "notes"));
                 created_at := created_at c;
                 updated_at := utcnow (E (tick w)) |}
    /\ committed w' = session w'.
Proof.
  intros Hauth Hc Ha Hin.
  unfold update_crew_status, login_required. rewrite Hauth.
  unfold mbind, M_bind. rewrite (get_or_404_run _ _ _ Hc), Ha.
  apply In_action_cases in Hin as [[-> ->]|[[-> ->]|[-> ->]]].
  - rewrite decide_True by reflexivity.
    do 3 assign. eexists. split; [reflexivity|]. cbn.
    split; [apply lookup_insert_eq | reflexivity].
  - rewrite decide_False by discriminate. rewrite decide_True by reflexivity.
    do 3 assign. eexists. split; [reflexivity|]. cbn.
    split; [apply lookup_insert_eq | reflexivity].
  - do 2 rewrite decide_False by discriminate. rewrite decide_True by reflexivity.
    do 3 assign. eexists. split; [reflexivity|]. cbn.
    split; [apply lookup_insert_eq | reflexivity].
Qed.

(** C10: with any other action (or none) the request still succeeds;
    status and admin_notes are as before, updated_at is the clock reading
    of the request whatever it was before, every other column is as
    before, and the row is committed. *)
Theorem update_crew_status_other_action E req crew_id w c :
  authenticated req = true ->
  crew_members (session w) !! crew_id = Some c ->
  form req !! "action" <> Some "approve" ->
  form req !! "action" <> Some "reject" ->
  form req !! "action" <> Some "flag" ->
  exists w',
    update_crew_status E req crew_id w
      = (Return (Redirect "crew_profile" [("crew_id", pretty crew_id)]), w')
    /\ crew_members (session w') !! crew_id
       = Some {| cm_name := cm_name c; cm_rank := cm_rank c; passport := passport c;
                 profile_token := profile_token c; status := status c;
                 admin_notes := admin_notes c;
                 created_at := created_at c;
                 updated_at := utcnow (E (tick w)) |}
    /\ crew_members (committed w') !! crew_id
       = Some {| cm_name := cm_name c; cm_rank := cm_rank c; passport := passport c;
                 profile_token := profile_token c; status := status c;
                 admin_notes := admin_notes c;
                 created_at := created_at c;
                 updated_at := utcnow (E (tick w)) |}.
Proof.
  intros Hauth Hc H1 H2 H3.
  unfold update_crew_status, login_required. rewrite Hauth.
  unfold mbind, M_bind. rewrite (get_or_404_run _ _ _ Hc).
  do 3 rewrite decide_False by assumption. cbn.
  assign. eexists. split; [reflexivity|]. cbn.
  split; apply lookup_insert_eq.
Qed.

Lemma update_crew_status_sets_witness :
  exists w',
    update_crew_status Sample.E (Sample.admin_request "flag" "check passport") 42
      Sample.world
      = (Return (Redirect "crew_profile" [("crew_id", "42")]), w')
    /\ crew_members (session w') !! 42
       = Some {| cm_name := "A. Mariner"; cm_rank := "Second Officer";
                 passport := "X1"; profile_token := Some "xyz"; status := -2;
                 admin_notes := Some "check passport";
                 created_at := 1754700000; updated_at := 1754723152 |}
    /\ committed w' = session w'.
Proof.
  apply (update_crew_status_sets Sample.E
           (Sample.admin_request "flag" "check passport") 42 Sample.world
           Sample.crew "flag" (-2)).
  - reflexivity.
  - vm_compute. reflexivity.
  - vm_compute. reflexivity.
  - simpl. auto.
Defined.

Lemma update_crew_status_other_action_witness :
  exists w',
    update_crew_status Sample.E (Sample.admin_request "archive" "n/a") 42
      Sample.world
      = (Return (Redirect "crew_profile" [("crew_id", "42")]), w')
    /\ crew_members (session w') !! 42
       = Some {| cm_name := "A. Mariner"; cm_rank := "Second Officer";
                 passport := "X1"; profile_token := Some "xyz"; status := 0;
                 admin_notes := Some "first review pending";
                 created_at := 1754700000; updated_at := 1754723152 |}
    /\ crew_members (committed w') !! 42
       = Some {| cm_name := "A. Mariner"; cm_rank := "Second Officer";
                 passport := "X1"; profile_token := Some "xyz"; status := 0;
                 admin_notes := Some "first review pending";
                 created_at := 1754700000; updated_at := 1754723152 |}.
Proof.
  apply (update_crew_status_other_action Sample.E
           (Sample.admin_request "archive" "n/a") 42 Sample.world Sample.crew).
  - reflexivity.
  - vm_compute. reflexivity.
  - vm_compute. discriminate.
  - vm_compute. discriminate.
  - vm_compute. discriminate.
Defined.

(** ** The profile token (generate_profile_token) *)

(** C2 fails on where the method is declared, the body of class
    CrewDocument.  Called on an applicant, as the handlers do, the
    lookup of the method fails; called on a document, its first read,
    [self.profile_token], fails.  Either way the call raises
    AttributeError, returns no token and leaves the store as it was;
    and the admin's request for a profile link, for an applicant in the
    store, ends in that exception whether or not a token is stored. *)
Theorem generate_profile_token_raises_AttributeError
    E sha256_hexdigest url_for_external self w :
  call_method self "generate_profile_token"
    (generate_profile_token E sha256_hexdigest) w
  = (Raise Py.AttributeError, w)
  /\ forall req crew_id c,
       authenticated req = true ->
       crew_members (session w) !! crew_id = Some c ->
       generate_profile_link E sha256_hexdigest url_for_external req crew_id w
       = (Raise Py.AttributeError, w).
Proof.
  split.
  - destruct self; reflexivity.
  - intros req crew_id c Hauth Hc.
    unfold generate_profile_link, login_required. rewrite Hauth.
    unfold mbind, M_bind. rewrite (get_or_404_run _ _ _ Hc). reflexivity.
Qed.

(** Applicant 42 holds the token "xyz"; the admin asks for the link. *)
Example generate_profile_link_of_42 :
  generate_profile_link Sample.E Sample.sha256_hexdigest Sample.url_for_external
    (Sample.admin_request "" "") 42 Sample.world
  = (Raise Py.AttributeError, Sample.world).
Proof. reflexivity. Qed.

(** What the body does once it runs on an applicant's row: a stored
    token is returned as it is, and a fresh one is stored, committed and
    returned again by the next run. *)
Example generate_profile_token_body_keeps_xyz :
  generate_profile_token Sample.E Sample.sha256_hexdigest (CrewMemberRef 42)
    Sample.world
  = (Return (Some "xyz"), Sample.world).
Proof. reflexivity. Qed.

Example generate_profile_token_body_twice :
  let r1 := generate_profile_token Sample.E Sample.sha256_hexdigest
              (CrewMemberRef 42) Sample.fresh_world in
  let r2 := generate_profile_token Sample.E Sample.sha256_hexdigest
              (CrewMemberRef 42) r1.2 in
  r1.1 = Return (Some (Py.hex (List.repeat Byte.xc3 32)))
  /\ r2 = (r1.1, r1.2)
  /\ (updated_at <$> crew_members (committed r1.2) !! 42) = Some 1754723153.
Proof. vm_compute. repeat split. Qed.

(** ** The token gate (crew_private_profile) *)

(** C3, as stated, fails: with the stored token "xyz", the pair
    (42, "abc") is answered by a redirect to the index page, and with no
    applicant 42 by the 404 of [get_or_404]. *)
Lemma wrong_token_and_missing_applicant_differ :
  (crew_private_profile Sample.E Sample.UPLOAD_FOLDER Sample.secure_filename
     Sample.splitext Sample.visit 42 "abc" Sample.world).1
  = Return (Redirect "index" [])
  /\ (crew_private_profile Sample.E Sample.UPLOAD_FOLDER Sample.secure_filename
        Sample.splitext Sample.visit 42 "abc" Sample.empty_world).1
     = Raise Py.NotFound
  /\ (crew_private_profile Sample.E Sample.UPLOAD_FOLDER Sample.secure_filename
        Sample.splitext Sample.visit 42 "abc" Sample.world).1
     <> (crew_private_profile Sample.E Sample.UPLOAD_FOLDER Sample.secure_filename
           Sample.splitext Sample.visit 42 "abc" Sample.empty_world).1.
Proof.
  split; [vm_compute; reflexivity|].
  split; [vm_compute; reflexivity|].
  vm_compute. discriminate.
Qed.

(** C3, amended: the handler goes on to the document form exactly when
    the applicant exists and its stored token is non-empty and equal to
    the presented one; an applicant with another token (or none) is
    answered by the flash "Invalid or expired profile link." and a
    redirect to the index page, with the store untouched; a missing
    applicant is answered by 404. *)
Theorem crew_private_profile_gate E UPLOAD_FOLDER secure_filename splitext
    req crew_id token w :
  crew_private_profile E UPLOAD_FOLDER secure_filename splitext req crew_id token w
  = match crew_members (session w) !! crew_id with
    | None => (Raise Py.NotFound, w)
    | Some c =>
        if decide (profile_token c = Some token /\ token <> "") then
          profile_documents E UPLOAD_FOLDER secure_filename splitext
            req crew_id token crew_id w
        else
          (Return (Redirect "index" []),
           with_flashes
             (flashes w ++ [("Invalid or expired profile link.", "error")]) w)
    end.
Proof.
  unfold crew_private_profile, mbind, M_bind, get_or_404, getattr_crew.
  destruct (crew_members (session w) !! crew_id) as [c|] eqn:Hc; [|reflexivity].
  rewrite Hc.
  destruct (decide (profile_token c = Some token /\ token <> "")) as [[Ht Hne]|Hn].
  - rewrite Ht, bool_decide_eq_true_2 by reflexivity.
    destruct token; [congruence | reflexivity].
  - destruct (profile_token c) as [t|] eqn:Ht; cbn; [|reflexivity].
    destruct (bool_decide (Some t = Some token)) eqn:Hb.
    + apply bool_decide_eq_true_1 in Hb. injection Hb as ->.
      destruct token; [reflexivity|]. exfalso. apply Hn. split; [reflexivity | discriminate].
    + destruct (Py.truthy_str t); reflexivity.
Qed.

Example crew_private_profile_right_token :
  crew_private_profile Sample.E Sample.UPLOAD_FOLDER Sample.secure_filename
    Sample.splitext Sample.visit 42 "xyz" Sample.world
  = (Return (RenderTemplate "crew_private_profile.html" 42), Sample.world).
Proof. vm_compute. reflexivity. Qed.

(** ** Uploads (save_crew_document, save_multiple_crew_documents) *)

Lemma last_char_app (p q : string) :
  q <> "" ->
  substring (String.length (p +:+ q) - 1) 1 (p +:+ q)
  = substring (String.length q - 1) 1 q.
Proof.
  intros Hq. induction p as [|a p IH]; [reflexivity|].
  change (String a p +:+ q) with (String a (p +:+ q)).
  cbn [String.length]. rewrite Nat.sub_1_r. cbn [Nat.pred].
  destruct (String.length (p +:+ q)) as [|m] eqn:Hm.
  - destruct p; [destruct q; [congruence | discriminate] | discriminate].
  - cbn [substring]. rewrite <- IH. now rewrite Nat.sub_1_r.
Qed.

Lemma app_assoc_string (a b c : string) : (a +:+ b) +:+ c = a +:+ (b +:+ c).
Proof.
  induction a as [|x a IH]; [reflexivity|].
  change (String x a +:+ b) with (String x (a +:+ b)).
  change (String x (a +:+ b) +:+ c) with (String x ((a +:+ b) +:+ c)).
  now rewrite IH.
Qed.

(** The path a row's [filename] denotes under the upload folder is the
    path [save_crew_document] wrote to. *)
Lemma path_join_crew_documents (folder x : string) :
  Py.path_join (Py.path_join folder "crew_documents") x
  = Py.path_join folder ("crew_documents/" +:+ x).
Proof.
  destruct folder as [|c folder]; [reflexivity|].
  unfold Py.path_join at 2 3.
  set (sep := String.eqb _ "/").
  assert (Hlast : forall p, Py.path_join (p +:+ "crew_documents") x
                            = p +:+ "crew_documents/" +:+ x).
  { intros p. unfold Py.path_join.
    destruct (p +:+ "crew_documents") eqn:Hp.
    - destruct p; discriminate.
    - rewrite <- Hp, last_char_app by discriminate. cbn.
      rewrite app_assoc_string. reflexivity. }
  destruct sep.
  - apply Hlast.
  - rewrite <- app_assoc_string, Hlast, app_assoc_string. reflexivity.
Qed.

Section Uploads.

Variable E : nat -> Env.
Variable UPLOAD_FOLDER : string.
Variable secure_filename : string -> string.
Variable splitext : string -> string * string.

Implicit Types (file : option FileStorage) (f : FileStorage) (w : World).

Lemma file_rejected_truthy file : file_rejected file = negb (file_truthy file).
Proof.
  unfold file_rejected. change (filename_truthy file) with (file_truthy file).
  now destruct (file_truthy file).
Qed.

Lemma save_crew_document_skip file crew_id ty cat w :
  file_truthy file = false ->
  save_crew_document E UPLOAD_FOLDER secure_filename splitext file crew_id ty cat w = (Return None, w).
Proof.
  intros H. unfold save_crew_document.
  now rewrite file_rejected_truthy, H.
Qed.

Lemma save_crew_document_saved f crew_id ty cat w :
  file_truthy (Some f) = true ->
  save_ok (E (S (tick w))) = true ->
  let path := Py.path_join (Py.path_join UPLOAD_FOLDER "crew_documents")
                (unique_filename_of secure_filename splitext f (uuid4_hex (E (tick w)))) in
  let d := {| doc_id := next_doc_id (session w); crew_id := crew_id;
              document_type := ty; document_category := cat;
              filename := "crew_documents/"
                          +:+ unique_filename_of secure_filename splitext f (uuid4_hex (E (tick w)));
              original_filename := default "" (fs_filename f);
              file_size := Some (Py.PyInt (Z.of_nat (length (stream f))));
              mime_type := if Py.truthy_ostr (content_type f) then content_type f
                           else Some "application/octet-stream";
              upload_date := utcnow (E (S (S (tick w)))) |} in
  let t := {| crew_members := crew_members (session w);
              crew_documents := crew_documents (session w) ++ [d];
              next_doc_id := next_doc_id (session w) + 1 |} in
  save_crew_document E UPLOAD_FOLDER secure_filename splitext (Some f) crew_id ty cat w
  = (Return (Some d),
     {| session := t; committed := t;
        disk := <[path := stream f]> (disk w);
        flashes := flashes w; tick := S (S (S (tick w))) |}).
Proof.
  intros Hf Hok. cbn zeta.
  unfold save_crew_document, unique_filename_of.
  rewrite file_rejected_truthy, Hf. cbn [negb].
  destruct (splitext _) as [name ext].
  unfold mbind, M_bind, ask, file_save, mbind, M_bind, ask. cbn.
  rewrite Hok. cbn. unfold getsize. cbn. rewrite lookup_insert_eq. reflexivity.
Qed.

Lemma save_crew_document_write_fails f crew_id ty cat w :
  file_truthy (Some f) = true ->
  save_ok (E (S (tick w))) = false ->
  save_crew_document E UPLOAD_FOLDER secure_filename splitext (Some f) crew_id ty cat w
  = (Raise Py.OSError,
     {| session := session w; committed := committed w; disk := disk w;
        flashes := flashes w; tick := S (S (tick w)) |}).
Proof.
  intros Hf Hok.
  unfold save_crew_document.
  rewrite file_rejected_truthy, Hf. cbn [negb].
  destruct (splitext _) as [name ext].
  unfold mbind, M_bind, ask, file_save, mbind, M_bind, ask. cbn.
  rewrite Hok. reflexivity.
Qed.


(** C7: saving a document either writes no row at all (the session and
    the committed tables are as before), or returns the one row it
    appended and committed, and then the write went through and the
    bytes are on disk under that row's filename with the recorded size;
    and when the write of a named file fails, the call raises and is in
    the first case. *)
Theorem save_crew_document_bytes_before_row file crew_id ty cat w :
  let r := save_crew_document E UPLOAD_FOLDER secure_filename splitext
             file crew_id ty cat w in
  ((session r.2 = session w /\ committed r.2 = committed w)
   \/ exists f d,
        file = Some f /\ r.1 = Return (Some d)
        /\ save_ok (E (S (tick w))) = true
        /\ disk r.2 !! Py.path_join UPLOAD_FOLDER (filename d) = Some (stream f)
        /\ file_size d = Some (Py.PyInt (Z.of_nat (length (stream f))))
        /\ crew_documents (session r.2) = (crew_documents (session w) ++ [d])%list
        /\ committed r.2 = session r.2)
  /\ (file_truthy file = true -> save_ok (E (S (tick w))) = false ->
      r.1 = Raise Py.OSError
      /\ session r.2 = session w /\ committed r.2 = committed w
      /\ disk r.2 = disk w).
Proof.
  cbn zeta. destruct (file_truthy file) eqn:Hf.
  - destruct file as [f|]; [|discriminate].
    destruct (save_ok (E (S (tick w)))) eqn:Hok.
    + rewrite save_crew_document_saved by assumption. split; [|discriminate].
      right. eexists f, _.
      split; [reflexivity|]. split; [reflexivity|].
      cbn [fst snd session committed disk filename file_size crew_documents].
      rewrite <- path_join_crew_documents, lookup_insert_eq. repeat split; assumption.
    + rewrite save_crew_document_write_fails by assumption. cbn.
      split; [left; split; reflexivity | intros _ _; repeat split].
  - rewrite save_crew_document_skip by assumption. cbn.
    split; [left; split; reflexivity | discriminate].
Qed.

(** C6, amended: for a missing file or one without a filename,
    [save_crew_document] returns None: nothing is raised and the store
    and the disk are as before; a batch holding only such a file
    returns the empty list, again without raising or recording
    anything. *)
Theorem save_crew_document_nameless_returns_None file crew_id ty cat w :
  match file with
  | None => True
  | Some f => fs_filename f = None \/ fs_filename f = Some ""
  end ->
  save_crew_document E UPLOAD_FOLDER secure_filename splitext file crew_id ty cat w
  = (Return None, w)
  /\ save_multiple_crew_documents E UPLOAD_FOLDER secure_filename splitext
       (FileList [file]) crew_id ty cat w
     = (Return [], w).
Proof.
  intros H.
  assert (Hf : file_truthy file = false).
  { destruct file as [f|]; [|reflexivity]. cbn. now destruct H as [-> | ->]. }
  split; [now apply save_crew_document_skip|].
  unfold save_multiple_crew_documents. cbn. now rewrite Hf.
Qed.

(** The loop of [save_multiple_crew_documents] with a non-empty
    accumulator, from the loop that starts with the empty one. *)
Lemma save_each_shift files owner ty cat :
  forall saved_docs w,
    save_each E UPLOAD_FOLDER secure_filename splitext files owner ty cat
      saved_docs w
    = match save_each E UPLOAD_FOLDER secure_filename splitext files owner ty cat
              [] w with
      | (Return docs, w') => (Return (saved_docs ++ docs)%list, w')
      | (Raise e, w') => (Raise e, w')
      end.
Proof.
  induction files as [|file files IH]; intros saved_docs w.
  - cbn. now rewrite app_nil_r.
  - cbn [save_each]. destruct (file_truthy file && filename_truthy file).
    + rewrite !mbind_run.
      destruct (save_crew_document E UPLOAD_FOLDER secure_filename splitext
                  file owner ty cat w) as [[[d|]|e] w1]; [| apply IH | reflexivity].
      rewrite (IH (saved_docs ++ [d])%list), (IH ([] ++ [d])%list).
      destruct (save_each E UPLOAD_FOLDER secure_filename splitext files owner
                  ty cat [] w1) as [[docs|e] w2]; [|reflexivity].
      now rewrite <- app_assoc.
    + apply IH.
Qed.

Lemma save_multiple_crew_documents_list files owner ty cat w :
  save_multiple_crew_documents E UPLOAD_FOLDER secure_filename splitext
    (FileList files) owner ty cat w
  = save_each E UPLOAD_FOLDER secure_filename splitext files owner ty cat [] w.
Proof. now destruct files. Qed.

Lemma file_truthy_named file : file_truthy file = named file.
Proof. destruct file as [[[[|a s]|] ct bs]|]; reflexivity. Qed.

Lemma file_name_named file : file_name file = None <-> named file = false.
Proof. unfold named. destruct (file_name file); split; congruence. Qed.

Lemma file_names_cons file files :
  file_names (file :: files)
  = match file_name file with
    | Some name => name :: file_names files
    | None => file_names files
    end.
Proof. reflexivity. Qed.

(** One step of the loop: the file goes through [save_crew_document],
    which answers None for the files the loop passes over. *)
Lemma save_each_cons file files owner ty cat w :
  save_each E UPLOAD_FOLDER secure_filename splitext (file :: files) owner ty cat
    [] w
  = match save_crew_document E UPLOAD_FOLDER secure_filename splitext
            file owner ty cat w with
    | (Return doc_record, w1) =>
        match save_each E UPLOAD_FOLDER secure_filename splitext files owner ty
                cat [] w1 with
        | (Return docs, w2) =>
            (Return (match doc_record with Some d => d :: docs | None => docs end),
             w2)
        | (Raise e, w2) => (Raise e, w2)
        end
    | (Raise e, w1) => (Raise e, w1)
    end.
Proof.
  cbn [save_each]. change (filename_truthy file) with (file_truthy file).
  destruct (file_truthy file) eqn:Hf; cbn [andb].
  - rewrite mbind_run.
    destruct (save_crew_document E UPLOAD_FOLDER secure_filename splitext
                file owner ty cat w) as [[[d|]|e] w1]; [| |reflexivity].
    + now rewrite save_each_shift.
    + now destruct (save_each E UPLOAD_FOLDER secure_filename splitext files owner
                      ty cat [] w1) as [[docs|e] w2].
  - rewrite save_crew_document_skip by assumption.
    now destruct (save_each E UPLOAD_FOLDER secure_filename splitext files owner
                    ty cat [] w) as [[docs|e] w2].
Qed.

Lemma save_each_named files owner ty cat saved_docs w :
  save_each E UPLOAD_FOLDER secure_filename splitext files owner ty cat saved_docs w
  = save_each E UPLOAD_FOLDER secure_filename splitext (List.filter named files)
      owner ty cat saved_docs w.
Proof.
  revert saved_docs w. induction files as [|file files IH]; intros saved_docs w;
    [reflexivity|].
  cbn [List.filter]. rewrite <- file_truthy_named.
  destruct (file_truthy file) eqn:Hf.
  - cbn [save_each]. change (filename_truthy file) with (file_truthy file).
    rewrite Hf. cbn [andb]. rewrite !mbind_run.
    destruct (save_crew_document E UPLOAD_FOLDER secure_filename splitext
                file owner ty cat w) as [[doc_record|e] w1]; [apply IH | reflexivity].
  - cbn [save_each]. change (filename_truthy file) with (file_truthy file).
    rewrite Hf. apply IH.
Qed.

(** The three ways a batch can go, by the writes of its named files:
    the [j]-th named file is written at the oracle's entry
    [tick w + 3 * j + 1]. *)
Lemma save_each_outcome files owner ty cat :
  forall w,
    let r := save_each E UPLOAD_FOLDER secure_filename splitext files owner ty cat
               [] w in
    (forall docs, r.1 = Return docs ->
       crew_documents (session r.2) = (crew_documents (session w) ++ docs)%list
       /\ List.map original_filename docs = file_names files
       /\ Forall (fun d => crew_id d = owner /\ document_type d = ty
                           /\ document_category d = cat) docs
       /\ forall j, (j < length (file_names files))%nat ->
                    save_ok (E (tick w + 3 * j + 1)) = true)
    /\ ((forall j, (j < length (file_names files))%nat ->
                   save_ok (E (tick w + 3 * j + 1)) = true) ->
        exists docs, r.1 = Return docs)
    /\ (forall j, (j < length (file_names files))%nat ->
                  save_ok (E (tick w + 3 * j + 1)) = false ->
                  r.1 = Raise Py.OSError).
Proof.
  induction files as [|file files IH]; intros w; cbn zeta.
  - cbn. split; [|split].
    + intros docs [= <-]. rewrite app_nil_r. repeat split; auto. intros j Hj. lia.
    + intros _. now exists [].
    + intros j Hj. lia.
  - rewrite save_each_cons, !file_names_cons.
    destruct (file_truthy file) eqn:Hf.
    + destruct file as [f|]; [|discriminate].
      assert (Hname : file_name (Some f) = Some (default "" (fs_filename f))).
      { cbn in Hf |- *. now destruct (fs_filename f) as [[|a s]|]. }
      rewrite Hname. cbn [length].
      destruct (save_ok (E (S (tick w)))) eqn:Hok.
      * rewrite save_crew_document_saved by assumption.
        match goal with
        | |- context [save_each _ _ _ _ files _ _ _ [] ?w1] =>
            specialize (IH w1); cbn zeta in IH;
            destruct (save_each E UPLOAD_FOLDER secure_filename splitext files owner
                        ty cat [] w1) as [[docs|e] w2]
        end; cbn [fst snd session crew_documents tick] in IH |- *;
          destruct IH as (IHret & IHok & IHfail).
        -- split; [|split].
           ++ intros docs0 [= <-].
              destruct (IHret docs eq_refl) as (Hrows & Hnames & Hall & Hoks).
              split; [rewrite Hrows; now rewrite <- app_assoc|].
              split; [cbn; now rewrite Hnames|].
              split; [constructor; [cbn; auto | exact Hall]|].
              intros [|j] Hj.
              ** now rewrite Nat.mul_0_r, Nat.add_0_r, Nat.add_1_r.
              ** replace (tick w + 3 * S j + 1)%nat
                   with (S (S (S (tick w))) + 3 * j + 1)%nat by lia.
                 apply Hoks. lia.
           ++ intros _. eauto.
           ++ intros [|j] Hj Hfail.
              ** rewrite Nat.mul_0_r, Nat.add_0_r, Nat.add_1_r in Hfail. congruence.
              ** enough (@Return (list CrewDocument) docs = Raise Py.OSError)
                   by discriminate.
                 apply (IHfail j); [lia|].
                 replace (S (S (S (tick w))) + 3 * j + 1)%nat
                   with (tick w + 3 * S j + 1)%nat by lia.
                 exact Hfail.
        -- split; [|split].
           ++ intros docs0 [=].
           ++ intros Hoks. destruct IHok as [docs [=]].
              intros j Hj.
              replace (S (S (S (tick w))) + 3 * j + 1)%nat
                with (tick w + 3 * S j + 1)%nat by lia.
              apply Hoks. lia.
           ++ intros [|j] Hj Hfail.
              ** rewrite Nat.mul_0_r, Nat.add_0_r, Nat.add_1_r in Hfail. congruence.
              ** apply (IHfail j); [lia|].
                 replace (S (S (S (tick w))) + 3 * j + 1)%nat
                   with (tick w + 3 * S j + 1)%nat by lia.
                 exact Hfail.
      * rewrite save_crew_document_write_fails by assumption. cbn [fst snd].
        split; [|split].
        -- intros docs [=].
        -- intros Hoks. specialize (Hoks 0%nat).
           rewrite Nat.mul_0_r, Nat.add_0_r, Nat.add_1_r in Hoks.
           rewrite Hoks in Hok by lia. discriminate.
        -- reflexivity.
    + rewrite save_crew_document_skip by assumption.
      assert (Hname : file_name file = None).
      { apply file_name_named. now rewrite <- file_truthy_named. }
      rewrite Hname. specialize (IH w). cbn zeta in IH.
      destruct (save_each E UPLOAD_FOLDER secure_filename splitext files owner
                  ty cat [] w) as [[docs|e] w2]; exact IH.
Qed.

(** C5, amended: a batch that is no list is an empty batch (None) or a
    batch of one file; a list is gone through in order, each file going
    through [save_crew_document]; a missing or nameless file adds no
    record and does not end the batch, so the batch does what the batch
    of its named files does; a batch that returns returns exactly the
    rows it appended, one per named file, in order, each with the
    applicant, type and category asked for; it returns exactly when the
    write of every named file goes through, and a named file whose
    write fails makes the batch raise OSError to its caller.  A batch
    of one named file and one nameless file, in either order, returns
    exactly one record when the write of the named file goes through. *)
Theorem save_multiple_crew_documents_batch file files owner ty cat w :
  let run := save_multiple_crew_documents E UPLOAD_FOLDER secure_filename splitext in
  let add := save_crew_document E UPLOAD_FOLDER secure_filename splitext in
  run NoFiles owner ty cat w = (Return [], w)
  /\ (forall f, run (OneFile f) owner ty cat w
                = run (FileList [Some f]) owner ty cat w)
  /\ run (FileList []) owner ty cat w = (Return [], w)
  /\ run (FileList (file :: files)) owner ty cat w
     = match add file owner ty cat w with
       | (Return doc_record, w1) =>
           match run (FileList files) owner ty cat w1 with
           | (Return docs, w2) =>
               (Return (match doc_record with
                        | Some d => d :: docs
                        | None => docs
                        end), w2)
           | (Raise e, w2) => (Raise e, w2)
           end
       | (Raise e, w1) => (Raise e, w1)
       end
  /\ (file_name file = None ->
      run (FileList (file :: files)) owner ty cat w
      = run (FileList files) owner ty cat w)
  /\ run (FileList files) owner ty cat w
     = run (FileList (List.filter named files)) owner ty cat w
  /\ (forall docs w',
        run (FileList files) owner ty cat w = (Return docs, w') ->
        crew_documents (session w') = (crew_documents (session w) ++ docs)%list
        /\ List.map original_filename docs = file_names files
        /\ Forall (fun d => crew_id d = owner /\ document_type d = ty
                            /\ document_category d = cat) docs)
  /\ ((exists docs w', run (FileList files) owner ty cat w = (Return docs, w'))
      <-> (forall j, (j < length (file_names files))%nat ->
                     save_ok (E (tick w + 3 * j + 1)) = true))
  /\ (forall j, (j < length (file_names files))%nat ->
                save_ok (E (tick w + 3 * j + 1)) = false ->
                exists w', run (FileList files) owner ty cat w
                           = (Raise Py.OSError, w'))
  /\ (forall f e name,
        file_name (Some f) = Some name -> file_name e = None ->
        save_ok (E (S (tick w))) = true ->
        exists d w',
          run (FileList [Some f; e]) owner ty cat w = (Return [d], w')
          /\ run (FileList [e; Some f]) owner ty cat w = (Return [d], w')
          /\ crew_documents (session w') = (crew_documents (session w) ++ [d])%list
          /\ crew_id d = owner /\ document_type d = ty
          /\ document_category d = cat /\ original_filename d = name).
Proof.
  cbn zeta.
  pose proof (save_each_outcome files owner ty cat w) as Hout. cbn zeta in Hout.
  rewrite !save_multiple_crew_documents_list.
  split; [reflexivity|].
  split.
  { intros f. unfold save_multiple_crew_documents.
    cbn [files_truthy files_as_list].
    destruct (file_truthy (Some f)) eqn:Hf; cbn [negb]; [reflexivity|].
    cbn [save_each]. now rewrite Hf. }
  split; [reflexivity|].
  split.
  { rewrite save_each_cons.
    destruct (save_crew_document E UPLOAD_FOLDER secure_filename splitext
                file owner ty cat w) as [[doc_record|e] w1]; [|reflexivity].
    now rewrite save_multiple_crew_documents_list. }
  split.
  { intros Hname. apply file_name_named in Hname.
    rewrite <- file_truthy_named in Hname.
    cbn [save_each]. now rewrite Hname. }
  split; [apply save_each_named|].
  destruct (save_each E UPLOAD_FOLDER secure_filename splitext files owner ty cat
              [] w) as [o w1] eqn:Hrun.
  cbn [fst snd] in Hout. destruct Hout as (Hret & Hok & Hfail).
  split.
  { intros docs w' [= -> ->].
    destruct (Hret docs eq_refl) as (Hrows & Hnames & Hall & _). auto. }
  split.
  { split.
    - intros (docs & w' & [= -> ->]). now destruct (Hret docs eq_refl) as (_ & _ & _ & H).
    - intros Hoks. destruct (Hok Hoks) as [docs ->]. eauto. }
  split.
  { intros j Hj Hj'. rewrite (Hfail j Hj Hj'). eauto. }
  intros f e name Hf He Hwrite.
  assert (Hft : file_truthy (Some f) = true).
  { rewrite file_truthy_named. unfold named. now rewrite Hf. }
  assert (Het : file_truthy e = false).
  { rewrite file_truthy_named. now apply file_name_named. }
  assert (Horig : default "" (fs_filename f) = name).
  { cbn in Hf. destruct (fs_filename f) as [[|a s]|]; cbn; congruence. }
  rewrite !save_multiple_crew_documents_list.
  cbn [save_each]. change (filename_truthy e) with (file_truthy e).
  change (filename_truthy (Some f)) with (file_truthy (Some f)).
  rewrite Hft, Het. cbn [andb]. rewrite mbind_run.
  rewrite save_crew_document_saved by assumption.
  eexists _, _. split; [reflexivity|]. split; [reflexivity|].
  cbn. auto 10.
Qed.

#[local] Instance newer_first_total : Total newer_first.
Proof. intros d1 d2. unfold newer_first. lia. Qed.

#[local] Instance newer_first_trans : Transitive newer_first.
Proof. intros d1 d2 d3. unfold newer_first. lia. Qed.




End Uploads.

(** *** Concrete runs *)

(** C6, as stated, fails: for a missing file, and for the empty part of
    a multi-file field, [save_crew_document] returns None and raises
    nothing. *)
Lemma save_crew_document_empty_file_raises_nothing :
  save_crew_document Sample.E Sample.UPLOAD_FOLDER Sample.secure_filename
    Sample.splitext None 42 "passport" "identity" Sample.world
  = (Return None, Sample.world)
  /\ save_crew_document Sample.E Sample.UPLOAD_FOLDER Sample.secure_filename
       Sample.splitext (Some Sample.empty_file) 42 "passport" "identity" Sample.world
     = (Return None, Sample.world)
  /\ ~ (exists e w',
         save_crew_document Sample.E Sample.UPLOAD_FOLDER Sample.secure_filename
           Sample.splitext (Some Sample.empty_file) 42 "passport" "identity"
           Sample.world
         = (Raise e, w')).
Proof.
  split; [reflexivity|]. split; [reflexivity|].
  intros (e & w' & H). discriminate H.
Qed.

Lemma save_crew_document_nameless_returns_None_witness :
  save_crew_document Sample.E Sample.UPLOAD_FOLDER Sample.secure_filename
    Sample.splitext (Some Sample.empty_file) 42 "passport" "identity" Sample.world
  = (Return None, Sample.world)
  /\ save_multiple_crew_documents Sample.E Sample.UPLOAD_FOLDER
       Sample.secure_filename Sample.splitext
       (FileList [Some Sample.empty_file]) 42 "passport" "identity" Sample.world
     = (Return [], Sample.world).
Proof.
  apply (save_crew_document_nameless_returns_None Sample.E Sample.UPLOAD_FOLDER
           Sample.secure_filename Sample.splitext (Some Sample.empty_file)).
  simpl. right. reflexivity.
Defined.

(** C5, as stated, fails: a batch of one valid file and one empty file,
    on a disk that refuses the write, raises OSError to its caller and
    yields no record. *)
Lemma save_multiple_crew_documents_failed_write_raises :
  save_multiple_crew_documents Sample.E_full Sample.UPLOAD_FOLDER
    Sample.secure_filename Sample.splitext
    (FileList [Some Sample.passport_scan; Some Sample.empty_file])
    42 "passport" "identity" Sample.world
  = (Raise Py.OSError,
     {| session := Sample.tables; committed := Sample.tables; disk := ∅;
        flashes := []; tick := 2 |})
  /\ ~ exists docs w',
        save_multiple_crew_documents Sample.E_full Sample.UPLOAD_FOLDER
          Sample.secure_filename Sample.splitext
          (FileList [Some Sample.passport_scan; Some Sample.empty_file])
          42 "passport" "identity" Sample.world
        = (Return docs, w')
        /\ length docs = 1%nat.
Proof.
  split; [reflexivity|]. intros (docs & w' & H & _). discriminate H.
Qed.

Lemma save_multiple_crew_documents_batch_witness :
  exists d w',
    save_multiple_crew_documents Sample.E Sample.UPLOAD_FOLDER
      Sample.secure_filename Sample.splitext
      (FileList [Some Sample.passport_scan; Some Sample.empty_file])
      42 "passport" "identity" Sample.world
    = (Return [d], w')
    /\ save_multiple_crew_documents Sample.E Sample.UPLOAD_FOLDER
         Sample.secure_filename Sample.splitext
         (FileList [Some Sample.empty_file; Some Sample.passport_scan])
         42 "passport" "identity" Sample.world
       = (Return [d], w')
    /\ crew_documents (session w')
       = (crew_documents (session Sample.world) ++ [d])%list
    /\ crew_id d = 42 /\ document_type d = "passport"
    /\ document_category d = "identity" /\ original_filename d = "passport.pdf".
Proof.
  pose proof (save_multiple_crew_documents_batch Sample.E Sample.UPLOAD_FOLDER
                Sample.secure_filename Sample.splitext None []
                42 "passport" "identity" Sample.world) as H.
  cbn zeta in H. destruct H as (_ & _ & _ & _ & _ & _ & _ & _ & _ & H).
  apply (H Sample.passport_scan (Some Sample.empty_file) "passport.pdf");
    reflexivity.
Defined.

Example one_valid_one_empty :
  (save_multiple_crew_documents Sample.E Sample.UPLOAD_FOLDER
     Sample.secure_filename Sample.splitext
     (FileList [Some Sample.passport_scan; Some Sample.empty_file])
     42 "passport" "identity" Sample.world).1
  = Return [ {| doc_id := 1; crew_id := 42; document_type := "passport";
                document_category := "identity";
                filename := "crew_documents/crew_9f1c2ab4_passport.pdf";
                original_filename := "passport.pdf";
                file_size := Some (Py.PyInt 4);
                mime_type := Some "application/pdf";
                upload_date := 1754723154 |} ].
Proof. vm_compute. reflexivity. Qed.

Example failed_write_leaves_no_row :
  let r := save_crew_document Sample.E_full Sample.UPLOAD_FOLDER
             Sample.secure_filename Sample.splitext
             (Some Sample.passport_scan) 42 "passport" "identity" Sample.world in
  r.1 = Raise Py.OSError
  /\ session r.2 = session Sample.world
  /\ committed r.2 = committed Sample.world.
Proof. vm_compute. auto. Qed.


Example two_passports_latest_first :
  let w1 := (save_crew_document Sample.E Sample.UPLOAD_FOLDER Sample.secure_filename
               Sample.splitext (Some Sample.passport_scan) 42 "passport" "identity"
               Sample.world).2 in
  let w2 := (save_crew_document Sample.E Sample.UPLOAD_FOLDER Sample.secure_filename
               Sample.splitext (Some Sample.passport_rescan) 42 "passport" "identity"
               w1).2 in
  List.map original_filename (select_newest_first (by_type 42 "passport") (session w2))
  = ["passport2.pdf"; "passport.pdf"].
Proof. vm_compute. reflexivity. Qed.

(** ** Completion (get_document_categories, get_profile_completion_percentage) *)








Example completion_with_passport_only :
  (get_profile_completion_percentage 42 Sample.doc_world).1 = Return 14.
Proof. vm_compute. reflexivity. Qed.

Example completion_without_documents :
  (get_profile_completion_percentage 42 Sample.world).1 = Return 0.
Proof. vm_compute. reflexivity. Qed.

(** ** The size helper (get_file_size_formatted) *)

(** C9 fails on the display helper: formatting the size of a stored
    2048-byte document returns "2.0 KB" and leaves 2.0 in the row's
    file_size, where 2048 was. *)
Theorem get_file_size_formatted_overwrites_file_size :
  let r := get_file_size_formatted 1 Sample.doc_world in
  r.1 = Return "2.0 KB"
  /\ List.map file_size (crew_documents (session Sample.doc_world))
     = [Some (Py.PyInt 2048)]
  /\ List.map file_size (crew_documents (session r.2))
     = [Some (Py.PyFloat 2%float)].
Proof. vm_compute. auto. Qed.

(** Below 1024 bytes the helper only reads. *)
Lemma get_file_size_formatted_small self w d n :
  List.find (fun d => doc_id d =? self) (crew_documents (session w)) = Some d ->
  file_size d = Some (Py.PyInt n) ->
  0 < n < 1024 ->
  (get_file_size_formatted self w).2 = w.
Proof.
  intros Hd Hn Hr. unfold get_file_size_formatted, mbind, M_bind, getattr_doc.
  rewrite Hd, Hn. cbn [Py.truthy_num].
  replace (n =? 0) with false by (symmetry; apply Z.eqb_neq; lia).
  cbn [negb size_loop Py.lt_1024].
  replace (n <? 1024) with true by (symmetry; apply Z.ltb_lt; lia).
  unfold mbind, M_bind. now destruct (lift _ w) as [[s|e] w'] eqn:Hl;
    unfold lift in Hl; destruct (Py.format_1f _); inversion Hl.
Qed.

(** ** Checks of the Python value model *)

Example int_truediv_then_int :
  List.map (fun k => match Py.int_truediv k 7 with
                     | inr q => Py.int_of_float (PrimFloat.mul q 100%float)
                     | inl e => inl e
                     end) [0; 1; 2; 3; 4; 5; 6; 7]
  = List.map inr [0; 14; 28; 42; 57; 71; 85; 100].
Proof. vm_compute. reflexivity. Qed.

Example format_1f_int : Py.format_1f (Py.PyInt 1023) = inr "1023.0".
Proof. vm_compute. reflexivity. Qed.

Example format_1f_half_even : Py.format_1f (Py.PyFloat 0.25%float) = inr "0.2".
Proof. vm_compute. reflexivity. Qed.

Example format_1f_rounds_up : Py.format_1f (Py.PyFloat 1.46484375%float) = inr "1.5".
Proof. vm_compute. reflexivity. Qed.

Example hex_bytes : Py.hex [Byte.x00; Byte.xff; Byte.x1a] = "00ff1a".
Proof. reflexivity. Qed.

Example path_join_relative :
  Py.path_join "uploads" "crew_documents" = "uploads/crew_documents"
  /\ Py.path_join "uploads/" "crew_documents" = "uploads/crew_documents"
  /\ Py.path_join "" "crew_documents" = "crew_documents".
Proof. repeat split. Qed.

(** * Further properties *)

(** ** The status workflow, continued *)

(** What an accepted status update leaves behind, for any action. *)
Lemma update_crew_status_run E req crew_id w c :
  authenticated req = true ->
  crew_members (session w) !! crew_id = Some c ->
  let action := form req !! "action" in
  let notes := Some (default "" (form req !! "notes")) in
  let c' :=
    set_updated_at (utcnow (E (tick w)))
      (if decide (action = Some "approve") then set_admin_notes notes (set_status 3 c)
       else if decide (action = Some "reject") then set_admin_notes notes (set_status (-1) c)
       else if decide (action = Some "flag") then set_admin_notes notes (set_status (-2) c)
       else c) in
  let t := {| crew_members := <[crew_id := c']> (crew_members (session w));
              crew_documents := crew_documents (session w);
              next_doc_id := next_doc_id (session w) |} in
  exists fl,
    update_crew_status E req crew_id w
    = (Return (Redirect "crew_profile" [("crew_id", pretty crew_id)]),
       {| session := t; committed := t; disk := disk w;
          flashes := (flashes w ++ fl)%list; tick := S (tick w) |}).
Proof.
  intros Hauth Hc. cbn zeta.
  unfold update_crew_status, login_required. rewrite Hauth.
  unfold mbind, M_bind. rewrite (get_or_404_run _ _ _ Hc).
  repeat case_decide.
  all: repeat assign; try (cbn; assign); rewrite ?insert_insert_eq;
    unfold with_committed, with_session, next_tick; cbn;
    rewrite ?insert_insert_eq.
  all: try (eexists [_]; reflexivity).
  all: try (exists []; now rewrite app_nil_r).
  all: congruence.
Qed.

(** X1: whatever the request, [update_crew_status] leaves the documents
    table, the disk and every other applicant's row as they are, creates
    or deletes no applicant, and keeps the name, rank, passport, token
    and creation time of the applicant it updates; a request of an
    anonymous caller or for an unknown id raises and changes nothing at
    all. *)
Theorem update_crew_status_frame E req crew_id w :
  let r := update_crew_status E req crew_id w in
  crew_documents (session r.2) = crew_documents (session w)
  /\ disk r.2 = disk w
  /\ (forall j, j <> crew_id ->
        crew_members (session r.2) !! j = crew_members (session w) !! j)
  /\ (forall c, crew_members (session w) !! crew_id = Some c ->
        exists c', crew_members (session r.2) !! crew_id = Some c'
          /\ cm_name c' = cm_name c /\ cm_rank c' = cm_rank c
          /\ passport c' = passport c /\ profile_token c' = profile_token c
          /\ created_at c' = created_at c)
  /\ (crew_members (session w) !! crew_id = None ->
        crew_members (session r.2) !! crew_id = None)
  /\ (authenticated req = false -> r = (Raise Py.Unauthorized, w))
  /\ (authenticated req = true -> crew_members (session w) !! crew_id = None ->
        r = (Raise Py.NotFound, w)).
Proof.
  cbn zeta.
  destruct (authenticated req) eqn:Hauth.
  - destruct (crew_members (session w) !! crew_id) as [c|] eqn:Hc.
    + destruct (update_crew_status_run E req crew_id w c Hauth Hc) as [fl ->].
      cbn [fst snd session crew_documents crew_members disk].
      split; [reflexivity|]. split; [reflexivity|].
      split; [intros j Hj; now apply lookup_insert_ne|].
      split; [|split; [discriminate|split; discriminate]].
      intros c0 [= <-]. eexists. split; [apply lookup_insert_eq|].
      repeat case_decide; cbn; auto.
    + assert (Hr : update_crew_status E req crew_id w = (Raise Py.NotFound, w)).
      { unfold update_crew_status, login_required. rewrite Hauth.
        unfold mbind, M_bind. now rewrite (get_or_404_missing _ _ Hc). }
      rewrite Hr. cbn [fst snd].
      split; [reflexivity|]. split; [reflexivity|]. split; [reflexivity|].
      split; [discriminate|]. split; [auto|]. split; [discriminate | auto].
  - assert (Hr : update_crew_status E req crew_id w = (Raise Py.Unauthorized, w)).
    { unfold update_crew_status, login_required. now rewrite Hauth. }
    rewrite Hr. cbn [fst snd].
    split; [reflexivity|]. split; [reflexivity|]. split; [reflexivity|].
    split; [intros c Hc; exists c; auto 10|].
    split; [auto|]. split; [auto | discriminate].
Qed.

(** ** Status labels *)

Lemma status_names_lookup (s : Z) :
  status_names !! s
  = if decide (s = 0) then Some "Registered"
    else if decide (s = 1) then Some "Screening"
    else if decide (s = 2) then Some "Documents Verified"
    else if decide (s = 3) then Some "Approved"
    else if decide (s = -1) then Some "Rejected"
    else if decide (s = -2) then Some "Flagged"
    else None.
Proof.
  unfold status_names.
  repeat (rewrite lookup_insert; repeat case_decide; try congruence; try lia).
  apply lookup_empty.
Qed.

Lemma status_classes_lookup (s : Z) :
  status_classes !! s
  = if decide (s = 0) then Some "secondary"
    else if decide (s = 1) then Some "warning"
    else if decide (s = 2) then Some "info"
    else if decide (s = 3) then Some "success"
    else if decide (s = -1) then Some "danger"
    else if decide (s = -2) then Some "dark"
    else None.
Proof.
  unfold status_classes.
  repeat (rewrite lookup_insert; repeat case_decide; try congruence; try lia).
  apply lookup_empty.
Qed.

(** X2: for an applicant in the store, both label methods only read;
    the name is "Unknown" exactly when the status is none of 0, 1, 2, 3,
    -1, -2, and the class is "secondary" exactly when the status is 0 or
    none of these, so an unknown status is styled like a registered
    one. *)
Theorem status_labels_of_unknown self w c :
  crew_members (session w) !! self = Some c ->
  exists name cls,
    get_status_name self w = (Return name, w)
    /\ get_status_class self w = (Return cls, w)
    /\ (name = "Unknown" <-> ~ In (status c) [0; 1; 2; 3; -1; -2])
    /\ (cls = "secondary" <-> status c = 0 \/ ~ In (status c) [0; 1; 2; 3; -1; -2]).
Proof.
  intros Hc. unfold get_status_name, get_status_class, mbind, M_bind.
  rewrite (getattr_crew_run _ _ _ Hc).
  rewrite status_names_lookup, status_classes_lookup.
  eexists _, _. split; [reflexivity|]. split; [reflexivity|].
  cbn [In]. repeat case_decide; cbn [default]; split; split;
    try discriminate; try tauto; try lia; intros; exfalso; intuition lia.
Qed.

Lemma status_labels_of_unknown_witness :
  exists name cls,
    get_status_name 42 Sample.world = (Return name, Sample.world)
    /\ get_status_class 42 Sample.world = (Return cls, Sample.world)
    /\ (name = "Unknown" <-> ~ In (status Sample.crew) [0; 1; 2; 3; -1; -2])
    /\ (cls = "secondary"
        <-> status Sample.crew = 0 \/ ~ In (status Sample.crew) [0; 1; 2; 3; -1; -2]).
Proof.
  apply (status_labels_of_unknown 42 Sample.world Sample.crew).
  vm_compute. reflexivity.
Defined.

(** X3: after an accepted approve, reject or flag, the applicant's name
    label is "Approved", "Rejected" or "Flagged" and the class
    "success", "danger" or "dark", whatever the status was before. *)
Theorem status_labels_after_action E req crew_id w c a label cls :
  authenticated req = true ->
  crew_members (session w) !! crew_id = Some c ->
  form req !! "action" = Some a ->
  In (a, (label, cls))
     [("approve", ("Approved", "success")); ("reject", ("Rejected", "danger"));
      ("flag", ("Flagged", "dark"))] ->
  exists w',
    (update_crew_status E req crew_id w).2 = w'
    /\ get_status_name crew_id w' = (Return label, w')
    /\ get_status_class crew_id w' = (Return cls, w').
Proof.
  intros Hauth Hc Ha Hin.
  destruct (update_crew_status_run E req crew_id w c Hauth Hc) as [fl ->].
  eexists. split; [reflexivity|]. cbn [snd].
  unfold get_status_name, get_status_class, mbind, M_bind.
  erewrite !getattr_crew_run by (cbn; apply lookup_insert_eq).
  rewrite Ha. cbn in Hin.
  destruct Hin as [H|[H|[H|[]]]]; inversion H; subst;
    repeat case_decide; try congruence; split; reflexivity.
Qed.

Lemma status_labels_after_action_witness :
  exists w',
    (update_crew_status Sample.E (Sample.admin_request "flag" "check passport") 42
       Sample.world).2 = w'
    /\ get_status_name 42 w' = (Return "Flagged", w')
    /\ get_status_class 42 w' = (Return "dark", w').
Proof.
  apply (status_labels_after_action Sample.E
           (Sample.admin_request "flag" "check passport") 42 Sample.world
           Sample.crew "flag" "Flagged" "dark").
  - reflexivity.
  - vm_compute. reflexivity.
  - vm_compute. reflexivity.
  - simpl. auto.
Defined.

(** ** The size helper, continued *)

Lemma renders_as_integer_below_1024 : forallb renders_as_integer (seq 1 1023) = true.
Proof. vm_compute. reflexivity. Qed.

Lemma format_1f_below_1024 (n : Z) :
  0 < n < 1024 -> Py.format_1f (Py.PyInt n) = inr (pretty n +:+ ".0").
Proof.
  intros Hn.
  pose proof (proj1 (forallb_forall _ _) renders_as_integer_below_1024 (Z.to_nat n))
    as H.
  unfold renders_as_integer in H. rewrite Z2Nat.id in H by lia.
  assert (Hin : In (Z.to_nat n) (seq 1 1023)) by (apply in_seq; lia).
  specialize (H Hin).
  destruct (Py.format_1f (Py.PyInt n)) as [e|s]; [discriminate|].
  apply String.eqb_eq in H. now subst.
Qed.

(** X6: for a stored document whose file_size is an integer from 1 to
    1023, the helper returns that integer followed by ".0 B" and changes
    nothing. *)
Theorem get_file_size_formatted_bytes self w d n :
  List.find (fun d => doc_id d =? self) (crew_documents (session w)) = Some d ->
  file_size d = Some (Py.PyInt n) ->
  0 < n < 1024 ->
  get_file_size_formatted self w = (Return (pretty n +:+ ".0 B"), w).
Proof.
  intros Hd Hsize Hn.
  unfold get_file_size_formatted, mbind, M_bind, getattr_doc.
  rewrite Hd, Hsize. cbn [Py.truthy_num].
  replace (n =? 0) with false by (symmetry; apply Z.eqb_neq; lia).
  cbn [negb size_loop Py.lt_1024].
  replace (n <? 1024) with true by (symmetry; apply Z.ltb_lt; lia).
  unfold mbind, M_bind. rewrite format_1f_below_1024 by assumption.
  cbn [lift]. unfold mret, M_ret. f_equal. f_equal.
  now rewrite app_assoc_string.
Qed.

Lemma get_file_size_formatted_bytes_witness :
  get_file_size_formatted 1
    (with_session
       {| crew_members := crew_members Sample.doc_tables;
          crew_documents := [set_file_size (Some (Py.PyInt 512)) Sample.stored_doc];
          next_doc_id := 2 |} Sample.doc_world)
  = (Return "512.0 B",
     with_session
       {| crew_members := crew_members Sample.doc_tables;
          crew_documents := [set_file_size (Some (Py.PyInt 512)) Sample.stored_doc];
          next_doc_id := 2 |} Sample.doc_world).
Proof.
  apply (get_file_size_formatted_bytes 1 _
           (set_file_size (Some (Py.PyInt 512)) Sample.stored_doc) 512).
  - reflexivity.
  - reflexivity.
  - lia.
Defined.

(** The assignment [self.file_size = y] on the rows of a table. *)
Lemma setattr_doc_twice self x1 x2 (docs : list CrewDocument) :
  List.map (fun d => if doc_id d =? self then set_file_size x2 d else d)
    (List.map (fun d => if doc_id d =? self then set_file_size x1 d else d) docs)
  = List.map (fun d => if doc_id d =? self then set_file_size x2 d else d) docs.
Proof.
  rewrite List.map_map. apply List.map_ext. intros d.
  destruct (doc_id d =? self) eqn:Hd; cbn [doc_id set_file_size]; now rewrite Hd.
Qed.

(** The loop assigns nothing but [self.file_size], to floats only; from
    a float it always returns. *)
Lemma size_loop_effect self units :
  forall x w,
    let r := size_loop self units x w in
    committed r.2 = committed w /\ disk r.2 = disk w /\ flashes r.2 = flashes w
    /\ tick r.2 = tick w
    /\ crew_members (session r.2) = crew_members (session w)
    /\ next_doc_id (session r.2) = next_doc_id (session w)
    /\ (r.2 = w
        \/ exists y,
             crew_documents (session r.2)
             = List.map (fun d => if doc_id d =? self
                                  then set_file_size (Some (Py.PyFloat y)) d else d)
                 (crew_documents (session w)))
    /\ ((exists f, x = Py.PyFloat f) -> exists s, r.1 = Return s).
Proof.
  induction units as [|unit units IH]; intros x w; cbn zeta.
  - cbn [size_loop]. unfold mbind, M_bind.
    destruct x as [n|f]; cbn [Py.format_1f].
    + destruct (Py.float_of_int n); cbn; repeat split; auto; intros [? ?]; discriminate.
    + cbn. repeat split; eauto.
  - cbn [size_loop]. destruct (Py.lt_1024 x).
    + unfold mbind, M_bind.
      destruct x as [n|f]; cbn [Py.format_1f].
      * destruct (Py.float_of_int n); cbn; repeat split; auto;
          intros [? ?]; discriminate.
      * cbn. repeat split; eauto.
    + unfold mbind at 1, M_bind at 1.
      assert (Hstep : forall y,
                 let r := (setattr_doc self (set_file_size (Some (Py.PyFloat y)));;
                           size_loop self units (Py.PyFloat y)) w in
                 committed r.2 = committed w /\ disk r.2 = disk w
                 /\ flashes r.2 = flashes w /\ tick r.2 = tick w
                 /\ crew_members (session r.2) = crew_members (session w)
                 /\ next_doc_id (session r.2) = next_doc_id (session w)
                 /\ (r.2 = w
                     \/ exists y',
                          crew_documents (session r.2)
                          = List.map (fun d => if doc_id d =? self
                                               then set_file_size (Some (Py.PyFloat y')) d
                                               else d)
                              (crew_documents (session w)))
                 /\ exists s, r.1 = Return s).
      { intros y. cbn zeta. unfold mbind, M_bind, setattr_doc.
        match goal with
        | |- context [size_loop self units (Py.PyFloat y) ?w1] =>
            destruct (IH (Py.PyFloat y) w1)
              as (Hc & Hd & Hf & Ht & Hm & Hn & Hrows & Hret)
        end.
        cbn [session committed disk flashes tick with_session crew_members
               crew_documents next_doc_id] in *.
        rewrite Hc, Hd, Hf, Ht, Hm, Hn.
        do 6 (split; [reflexivity|]). split; [|eauto].
        right. destruct Hrows as [-> | [y' ->]].
        - exists y. reflexivity.
        - exists y'. apply setattr_doc_twice. }
      destruct x as [n|f]; cbn [Py.div_1024].
      * destruct (Py.float_of_int n) as [e|f]; cbn [lift].
        -- cbn. repeat split; auto; intros [? ?]; discriminate.
        -- unfold mret, M_ret.
           destruct (Hstep (PrimFloat.div f 1024%float))
             as (Hc & Hd & Hf & Ht & Hm & Hn & Hrows & Hret).
           repeat split; auto.
      * cbn [lift]. unfold mret, M_ret.
        destruct (Hstep (PrimFloat.div f 1024%float))
          as (Hc & Hd & Hf & Ht & Hm & Hn & Hrows & Hret).
        repeat split; auto.
Qed.

Lemma find_after_setattr_doc self x (docs : list CrewDocument) d :
  List.find (fun d => doc_id d =? self) docs = Some d ->
  List.find (fun d => doc_id d =? self)
    (List.map (fun d => if doc_id d =? self then set_file_size x d else d) docs)
  = Some (set_file_size x d).
Proof.
  induction docs as [|d0 docs IH]; [discriminate|].
  cbn [List.find List.map]. destruct (doc_id d0 =? self) eqn:H0.
  - intros [= ->]. cbn [doc_id set_file_size]. now rewrite H0.
  - rewrite H0. exact IH.
Qed.

(** X7: whatever the store and the row asked for, the size helper leaves
    the committed tables, the disk, the flashed messages and the
    applicants as they are; in the session it creates and drops no
    document row, and a row differs from what it was at most in
    file_size, and only if its primary key is the one asked for. *)
Theorem get_file_size_formatted_frame self w :
  let r := get_file_size_formatted self w in
  committed r.2 = committed w /\ disk r.2 = disk w /\ flashes r.2 = flashes w
  /\ crew_members (session r.2) = crew_members (session w)
  /\ Forall2 (fun d d' => d' = set_file_size (file_size d') d
                          /\ (doc_id d <> self -> d' = d))
       (crew_documents (session w)) (crew_documents (session r.2)).
Proof.
  cbn zeta.
  assert (Hsame : Forall2 (fun d d' => d' = set_file_size (file_size d') d
                                       /\ (doc_id d <> self -> d' = d))
                    (crew_documents (session w)) (crew_documents (session w))).
  { apply Forall_Forall2_diag, Forall_forall. intros d _. now destruct d. }
  unfold get_file_size_formatted, mbind, M_bind, getattr_doc.
  destruct (List.find _ _) as [d|]; [|cbn; auto].
  destruct (file_size d) as [x|]; [|cbn; auto].
  destruct (negb (Py.truthy_num x)); [cbn; auto|].
  destruct (size_loop_effect self ["B"; "KB"; "MB"; "GB"] x w)
    as (Hc & Hd & Hf & _ & Hm & _ & Hrows & _).
  do 4 (split; [assumption|]).
  destruct Hrows as [-> | [y ->]]; [exact Hsame|].
  apply Forall2_fmap_r, Forall_Forall2_diag, Forall_forall. intros d0 _.
  unfold compose. destruct (doc_id d0 =? self) eqn:H0.
  - split; [reflexivity|]. intros Hne. apply Z.eqb_eq in H0. contradiction.
  - split; [now destruct d0 | reflexivity].
Qed.

Lemma size_loop_from_kilobytes self unit units n w d :
  List.find (fun d => doc_id d =? self) (crew_documents (session w)) = Some d ->
  1024 <= n ->
  let r := size_loop self (unit :: units) (Py.PyInt n) w in
  r = (Raise Py.OverflowError, w)
  \/ exists s y,
       r.1 = Return s
       /\ List.find (fun d => doc_id d =? self) (crew_documents (session r.2))
          = Some (set_file_size (Some (Py.PyFloat y)) d).
Proof.
  intros Hd Hn. cbn zeta. cbn [size_loop Py.lt_1024].
  replace (n <? 1024) with false by (symmetry; apply Z.ltb_ge; lia).
  unfold mbind at 1, M_bind at 1. cbn [Py.div_1024].
  unfold Py.float_of_int.
  destruct (PrimFloat.is_infinity _); cbn [lift]; [left; reflexivity|].
  right. unfold mret, M_ret, mbind, M_bind, setattr_doc.
  match goal with
  | |- context [size_loop self units (Py.PyFloat ?y) ?w1] =>
      destruct (size_loop_effect self units (Py.PyFloat y) w1)
        as (_ & _ & _ & _ & _ & _ & Hrows & Hret);
      destruct Hret as [s Hs]; [eauto|];
      destruct (size_loop self units (Py.PyFloat y) w1) as [o w2] eqn:Hloop
  end.
  cbn [fst snd] in *. subst o. exists s.
  destruct Hrows as [-> | [y' ->]]; cbn [session with_session crew_documents].
  - eexists. split; [reflexivity|]. now apply find_after_setattr_doc.
  - exists y'. split; [reflexivity|].
    rewrite setattr_doc_twice. now apply find_after_setattr_doc.
Qed.

(** X8: for a stored document whose file_size is an integer of 1024 or
    more, the helper either raises OverflowError and changes nothing
    (the integer has no float), or returns a string and leaves a float in
    the row's file_size: the integer size is never kept. *)
Theorem get_file_size_formatted_never_keeps_kilobytes self w d n :
  List.find (fun d => doc_id d =? self) (crew_documents (session w)) = Some d ->
  file_size d = Some (Py.PyInt n) ->
  1024 <= n ->
  let r := get_file_size_formatted self w in
  r = (Raise Py.OverflowError, w)
  \/ exists s y,
       r.1 = Return s
       /\ List.find (fun d => doc_id d =? self) (crew_documents (session r.2))
          = Some (set_file_size (Some (Py.PyFloat y)) d).
Proof.
  intros Hd Hsize Hn. cbn zeta.
  unfold get_file_size_formatted, mbind, M_bind, getattr_doc.
  rewrite Hd, Hsize. cbn [Py.truthy_num].
  replace (n =? 0) with false by (symmetry; apply Z.eqb_neq; lia).
  cbn [negb]. now apply size_loop_from_kilobytes.
Qed.

Lemma get_file_size_formatted_never_keeps_kilobytes_witness :
  let r := get_file_size_formatted 1 Sample.doc_world in
  r = (Raise Py.OverflowError, Sample.doc_world)
  \/ exists s y,
       r.1 = Return s
       /\ List.find (fun d => doc_id d =? 1) (crew_documents (session r.2))
          = Some (set_file_size (Some (Py.PyFloat y)) Sample.stored_doc).
Proof.
  apply (get_file_size_formatted_never_keeps_kilobytes 1 Sample.doc_world
           Sample.stored_doc 2048).
  - reflexivity.
  - reflexivity.
  - lia.
Defined.

(** ** Uploads, continued *)

Lemma appended_nil owner t : appended owner t t [].
Proof.
  unfold appended. cbn. rewrite app_nil_r, Z.add_0_r. auto.
Qed.

Lemma appended_app owner t t1 t2 news1 news2 :
  appended owner t t1 news1 -> appended owner t1 t2 news2 ->
  appended owner t t2 (news1 ++ news2).
Proof.
  intros (Hd1 & Hn1 & Hk1 & Ho1) (Hd2 & Hn2 & Hk2 & Ho2). unfold appended.
  rewrite Hd2, Hd1, Hn2, Hn1, length_app, <- app_assoc, List.map_app, Hk1, Hk2.
  rewrite seq_app, List.map_app. cbn [Nat.add].
  split; [reflexivity|]. split; [lia|]. split; [|now apply Forall_app].
  f_equal. cbn [Nat.add].
  replace (seq (length news1) (length news2))
    with (Nat.add (length news1) <$> seq 0 (length news2))
    by (rewrite fmap_add_seq; now rewrite Nat.add_0_r).
  change (Nat.add (length news1) <$> seq 0 (length news2))
    with (List.map (Nat.add (length news1)) (seq 0 (length news2))).
  rewrite List.map_map.
  apply List.map_ext. intros k. rewrite Hn1. lia.
Qed.

Lemma appended_nothing owner t t' :
  appended owner t t' [] -> crew_members t' = crew_members t -> t' = t.
Proof.
  intros (Hd & Hn & _ & _) Hm. destruct t, t'. cbn in *.
  rewrite app_nil_r in Hd. rewrite Z.add_0_r in Hn. now subst.
Qed.

Lemma upload_effect_refl owner P w : upload_effect owner P w w [].
Proof.
  unfold upload_effect. split; [apply appended_nil | auto 10].
Qed.

Lemma upload_effect_trans owner P w w1 w2 news1 news2 :
  upload_effect owner P w w1 news1 -> upload_effect owner P w1 w2 news2 ->
  upload_effect owner P w w2 (news1 ++ news2).
Proof.
  intros (Ha1 & Hm1 & Hf1 & Hp1 & Hc1) (Ha2 & Hm2 & Hf2 & Hp2 & Hc2).
  unfold upload_effect.
  split; [eapply appended_app; eassumption|].
  split; [congruence|]. split; [congruence|]. split; [now apply Forall_app|].
  destruct Hc2 as [[-> Hc2] | Hc2]; [|now right].
  rewrite app_nil_r. rewrite (appended_nothing _ _ _ Ha2 Hm2), Hc2.
  exact Hc1.
Qed.

Lemma upload_effect_weaken owner (P Q : CrewDocument -> Prop) w w' news :
  (forall d, P d -> Q d) ->
  upload_effect owner P w w' news -> upload_effect owner Q w w' news.
Proof.
  intros HPQ (Ha & Hm & Hf & Hp & Hc). unfold upload_effect.
  do 3 (split; [assumption|]).
  split; [eapply Forall_impl; eassumption | assumption].
Qed.

Section UploadInvariants.

Variable E : nat -> Env.
Variable UPLOAD_FOLDER : string.
Variable secure_filename : string -> string.
Variable splitext : string -> string * string.

(** What a call of [save_crew_document] can have done, whatever its
    outcome. *)
Lemma save_crew_document_effect file crew_id ty cat w :
  let r := save_crew_document E UPLOAD_FOLDER secure_filename splitext
             file crew_id ty cat w in
  exists news,
    upload_effect crew_id
      (fun d => document_type d = ty /\ document_category d = cat) w r.2 news
    /\ match r.1 with
       | Return (Some d) => news = [d]
       | _ => news = []
       end.
Proof.
  cbn zeta. destruct (file_truthy file) eqn:Hf.
  - destruct file as [f|]; [|discriminate].
    destruct (save_ok (E (S (tick w)))) eqn:Hok.
    + rewrite save_crew_document_saved by assumption. eexists [_].
      cbn [fst snd]. split; [|reflexivity].
      unfold upload_effect, appended. cbn. rewrite Z.add_0_r. auto 10.
    + rewrite save_crew_document_write_fails by assumption. exists [].
      cbn [fst snd]. split; [|reflexivity].
      unfold upload_effect. cbn [session committed flashes].
      split; [apply appended_nil | auto 10].
  - rewrite save_crew_document_skip by assumption. exists [].
    split; [apply upload_effect_refl | reflexivity].
Qed.

Lemma save_each_effect files crew_id ty cat :
  forall saved_docs w,
    let r := save_each E UPLOAD_FOLDER secure_filename splitext
               files crew_id ty cat saved_docs w in
    exists news,
      upload_effect crew_id
        (fun d => document_type d = ty /\ document_category d = cat) w r.2 news
      /\ match r.1 with
         | Return docs => docs = (saved_docs ++ news)%list
         | Raise _ => True
         end.
Proof.
  induction files as [|file files IH]; intros saved_docs w; cbn zeta.
  - exists []. cbn. rewrite app_nil_r. split; [apply upload_effect_refl | reflexivity].
  - cbn [save_each]. destruct (file_truthy file && filename_truthy file).
    + rewrite mbind_run.
      destruct (save_crew_document_effect file crew_id ty cat w) as (news1 & H1 & Hr1).
      destruct (save_crew_document E UPLOAD_FOLDER secure_filename splitext
                  file crew_id ty cat w) as [[doc_record|e] w1].
      * cbn [fst snd] in H1, Hr1.
        match goal with
        | |- context [save_each _ _ _ _ files _ _ _ ?acc w1] =>
            destruct (IH acc w1) as (news2 & H2 & Hr2);
            destruct (save_each E UPLOAD_FOLDER secure_filename splitext
                        files crew_id ty cat acc w1) as [o2 w2] eqn:Hrun
        end.
        cbn [fst snd] in *. exists (news1 ++ news2)%list.
        split; [eapply upload_effect_trans; eassumption|].
        destruct o2 as [docs|]; [|exact I].
        destruct doc_record as [d|]; subst; [now rewrite <- app_assoc | reflexivity].
      * cbn [fst snd] in *. exists news1. auto.
    + apply IH.
Qed.

Lemma save_multiple_crew_documents_effect files crew_id ty cat w :
  let r := save_multiple_crew_documents E UPLOAD_FOLDER secure_filename splitext
             files crew_id ty cat w in
  exists news,
    upload_effect crew_id
      (fun d => document_type d = ty /\ document_category d = cat) w r.2 news
    /\ match r.1 with
       | Return docs => docs = news
       | Raise _ => True
       end.
Proof.
  cbn zeta. unfold save_multiple_crew_documents.
  destruct (negb (files_truthy files)).
  - exists []. split; [apply upload_effect_refl | reflexivity].
  - apply (save_each_effect (files_as_list files) crew_id ty cat [] w).
Qed.

Lemma upload_fields_effect req crew_member fields :
  forall updated_docs w,
    let r := upload_fields E UPLOAD_FOLDER secure_filename splitext
               req crew_member fields updated_docs w in
    exists news,
      upload_effect crew_member
        (fun d => In (document_type d, document_category d)
                     (List.map (fun fc => (fc.1, fc.2.1)) fields)) w r.2 news
      /\ (news = [] -> r.1 = Return updated_docs \/ exists e, r.1 = Raise e).
Proof.
  induction fields as [|[field_name [category name]] fields IH];
    intros updated_docs w; cbn zeta.
  - exists []. split; [apply upload_effect_refl | now left].
  - cbn [upload_fields].
    destruct (files_truthy (default NoFiles (field_data req !! field_name))).
    + rewrite mbind_run.
      destruct (save_multiple_crew_documents_effect
                  (default NoFiles (field_data req !! field_name))
                  crew_member field_name category w) as (news1 & H1 & Hr1).
      destruct (save_multiple_crew_documents E UPLOAD_FOLDER secure_filename
                  splitext (default NoFiles (field_data req !! field_name))
                  crew_member field_name category w) as [[saved_docs|e] w1].
      * cbn [fst snd] in H1, Hr1. subst saved_docs.
        match goal with
        | |- context [upload_fields _ _ _ _ _ _ fields ?acc w1] =>
            destruct (IH acc w1) as (news2 & H2 & Hr2);
            destruct (upload_fields E UPLOAD_FOLDER secure_filename splitext
                        req crew_member fields acc w1) as [o2 w2] eqn:Hrun
        end.
        cbn [fst snd] in *. exists (news1 ++ news2)%list. split.
        -- eapply upload_effect_trans.
           ++ eapply upload_effect_weaken; [|exact H1].
              intros d [-> ->]. now left.
           ++ eapply upload_effect_weaken; [|exact H2].
              intros d Hd. now right.
        -- intros Hnil. apply app_eq_nil in Hnil as [-> ->]. auto.
      * cbn [fst snd] in *. exists news1. split; [|eauto].
        eapply upload_effect_weaken; [|exact H1]. intros d [-> ->]. now left.
    + destruct (IH updated_docs w) as (news & H & Hr). exists news. split; [|exact Hr].
      eapply upload_effect_weaken; [|exact H]. intros d Hd. now right.
Qed.

Lemma document_categories_in_catalog :
  forall p, In p (List.map (fun fc : string * (string * string) => (fc.1, fc.2.1))
                    document_categories) ->
            In p catalog_pairs.
Proof.
  intros p Hp. cbn in Hp.
  repeat (destruct Hp as [<- | Hp]; [cbn; auto 20|]). destruct Hp.
Qed.

Lemma touch_and_commit_run crew_id message category w c :
  crew_members (session w) !! crew_id = Some c ->
  let t := {| crew_members :=
                <[crew_id := set_updated_at (utcnow (E (tick w))) c]>
                  (crew_members (session w));
              crew_documents := crew_documents (session w);
              next_doc_id := next_doc_id (session w) |} in
  (ask E utcnow
   ≫= λ now : Z,
        setattr_crew crew_id (set_updated_at now)
        ≫= λ _ : (), db_session_commit ≫= λ _ : (), flash message category) w
  = (Return tt,
     {| session := t; committed := t; disk := disk w;
        flashes := (flashes w ++ [(message, category)])%list;
        tick := S (tick w) |}).
Proof.
  intros Hc. cbn zeta. unfold mbind, M_bind, ask.
  erewrite setattr_crew_run by (cbn; exact Hc). reflexivity.
Qed.

(** The handler below the token check, for an applicant in the store. *)
Lemma profile_documents_effect req crew_id token w c :
  crew_members (session w) !! crew_id = Some c ->
  let r := profile_documents E UPLOAD_FOLDER secure_filename splitext
             req crew_id token crew_id w in
  exists news,
    appended crew_id (session w) (session r.2) news
    /\ Forall (fun d => In (document_type d, document_category d) catalog_pairs) news
    /\ (crew_members (session r.2) = crew_members (session w)
        \/ exists now,
             crew_members (session r.2)
             = <[crew_id := set_updated_at now c]> (crew_members (session w))).
Proof.
  intros Hc. cbn zeta. unfold profile_documents.
  destruct (validate_on_submit req).
  2: { exists []. split; [apply appended_nil | auto]. }
  rewrite mbind_run.
  destruct (upload_fields_effect req crew_id document_categories [] w)
    as (news & (Happ & Hm & Hf & Hp & Hcommit) & _).
  assert (Hcat : Forall (fun d => In (document_type d, document_category d)
                                     catalog_pairs) news).
  { eapply Forall_impl; [exact Hp|]. intros d. apply document_categories_in_catalog. }
  destruct (upload_fields E UPLOAD_FOLDER secure_filename splitext req crew_id
              document_categories [] w) as [[updated_docs|e] w1].
  2: { exists news. cbn [fst snd] in *. auto. }
  cbn [fst snd] in *. exists news.
  destruct updated_docs as [|label labels].
  - cbn. auto.
  - rewrite mbind_run.
    assert (Hc1 : crew_members (session w1) !! crew_id = Some c) by now rewrite Hm.
    rewrite (touch_and_commit_run crew_id _ _ w1 c Hc1).
    cbn [fst snd session crew_members crew_documents next_doc_id mret M_ret].
    split; [|split; [exact Hcat|right; eexists; now rewrite Hm]].
    destruct Happ as (Hd & Hn & Hk & Ho). unfold appended. cbn. auto.
Qed.

(** X9: whatever the request, the token and the outcome (a failed disk
    write included), [crew_private_profile] only appends document rows:
    the rows that were there stay as they are and in place, the new rows
    carry the next primary keys, belong to the applicant of the link and
    have a (type, category) pair of the models' catalog; no other
    applicant's row changes, and the applicant's own row changes at most
    in updated_at; for an unknown id the handler raises 404 and changes
    nothing. *)
Theorem crew_private_profile_appends_own_rows req crew_id token w :
  let r := crew_private_profile E UPLOAD_FOLDER secure_filename splitext
             req crew_id token w in
  exists news,
    appended crew_id (session w) (session r.2) news
    /\ Forall (fun d => In (document_type d, document_category d) catalog_pairs) news
    /\ (forall j, j <> crew_id ->
          crew_members (session r.2) !! j = crew_members (session w) !! j)
    /\ (forall c, crew_members (session w) !! crew_id = Some c ->
          exists c', crew_members (session r.2) !! crew_id = Some c'
                     /\ c' = set_updated_at (updated_at c') c)
    /\ (crew_members (session w) !! crew_id = None -> r = (Raise Py.NotFound, w)).
Proof.
  cbn zeta. unfold crew_private_profile. rewrite mbind_run.
  destruct (crew_members (session w) !! crew_id) as [c|] eqn:Hc.
  - rewrite (get_or_404_run _ _ _ Hc), mbind_run, (getattr_crew_run _ _ _ Hc).
    destruct (negb (Py.truthy_ostr (profile_token c))
              || negb (bool_decide (profile_token c = Some token))).
    + exists []. cbn. split; [apply appended_nil|]. split; [constructor|].
      split; [reflexivity|]. split; [|discriminate].
      intros c0 [= <-]. exists c. split; [first [exact Hc | reflexivity] | now destruct c].
    + destruct (profile_documents_effect req crew_id token w c Hc)
        as (news & Happ & Hcat & Hm).
      exists news. split; [exact Happ|]. split; [exact Hcat|].
      destruct Hm as [-> | [now ->]].
      * split; [reflexivity|]. split; [|discriminate].
        intros c0 [= <-]. exists c.
        split; [first [exact Hc | reflexivity] | now destruct c].
      * split; [intros j Hj; now apply lookup_insert_ne|].
        split; [|discriminate].
        intros c0 [= <-]. eexists. split; [apply lookup_insert_eq | reflexivity].
  - rewrite (get_or_404_missing _ _ Hc). exists []. cbn [fst snd].
    split; [apply appended_nil|]. split; [constructor|].
    split; [reflexivity|]. split; [discriminate | reflexivity].
Qed.

(** A prefix of a batch whose writes all succeed: the loop reaches the
    rest of the batch with one row per named file of the prefix, already
    committed. *)
Lemma save_each_prefix files1 crew_id ty cat :
  forall saved_docs w,
    (forall j, (j < length (List.filter file_truthy files1))%nat ->
               save_ok (E (tick w + 3 * j + 1)) = true) ->
    exists docs w1,
      (forall files2,
          save_each E UPLOAD_FOLDER secure_filename splitext (files1 ++ files2)
            crew_id ty cat saved_docs w
          = save_each E UPLOAD_FOLDER secure_filename splitext files2
              crew_id ty cat (saved_docs ++ docs) w1)
      /\ crew_documents (session w1) = (crew_documents (session w) ++ docs)%list
      /\ List.map original_filename docs
         = List.map (fun file => default "" (file ≫= fs_filename))
             (List.filter file_truthy files1)
      /\ tick w1 = (tick w + 3 * length (List.filter file_truthy files1))%nat
      /\ (docs = [] /\ w1 = w \/ committed w1 = session w1).
Proof.
  induction files1 as [|file files1 IH]; intros saved_docs w Hok.
  - exists [], w. cbn. rewrite !app_nil_r, Nat.add_0_r. auto 10.
  - cbn [List.filter] in *. destruct (file_truthy file) eqn:Hf.
    + destruct file as [f|]; [|discriminate].
      assert (Hok0 : save_ok (E (S (tick w))) = true).
      { specialize (Hok 0%nat). cbn [length] in Hok.
        rewrite Nat.mul_0_r, Nat.add_0_r, Nat.add_1_r in Hok. apply Hok. lia. }
      pose proof (save_crew_document_saved E UPLOAD_FOLDER secure_filename splitext
                    f crew_id ty cat w Hf Hok0) as Hsaved.
      cbn zeta in Hsaved.
      match type of Hsaved with
      | _ = (Return (Some ?d), ?w0) =>
          destruct (IH (saved_docs ++ [d])%list w0) as (docs & w1 & Hrest & Hrows & Hnames & Htick & Hcommit)
      end.
      { intros j Hj. cbn [tick]. specialize (Hok (S j)). cbn [length] in Hok.
        replace (S (S (S (tick w))) + 3 * j + 1)%nat
          with (tick w + 3 * S j + 1)%nat by lia.
        apply Hok. lia. }
      eexists (_ :: docs), w1. split; [|split; [|split; [|split]]].
      * intros files2. cbn [app save_each].
        change (filename_truthy (Some f)) with (file_truthy (Some f)).
        rewrite Hf. cbn [andb]. rewrite mbind_run, Hsaved.
        rewrite Hrest, <- app_assoc. reflexivity.
      * rewrite Hrows. cbn [session crew_documents]. now rewrite <- app_assoc.
      * cbn [List.map]. now rewrite Hnames.
      * rewrite Htick. cbn [tick length]. lia.
      * right. destruct Hcommit as [[-> ->] | Hcommit]; [reflexivity | exact Hcommit].
    + destruct (IH saved_docs w Hok) as (docs & w1 & Hrest & Hrows & Hnames & Htick & Hcommit).
      exists docs, w1. split; [|auto].
      intros files2. cbn [app save_each].
      change (filename_truthy file) with (file_truthy file).
      rewrite Hf. cbn [andb]. apply Hrest.
Qed.

(** X11: a batch stops at the first named file whose write fails: the
    call raises OSError instead of returning a list, the files after it
    are not looked at, and the rows of the named files before it (one
    each, in order) are in the table and stay committed. *)
Theorem save_multiple_crew_documents_stops_at_failed_write
    files1 f files2 crew_id ty cat w :
  (forall j, (j < length (List.filter file_truthy files1))%nat ->
             save_ok (E (tick w + 3 * j + 1)) = true) ->
  file_truthy (Some f) = true ->
  save_ok (E (tick w + 3 * length (List.filter file_truthy files1) + 1)) = false ->
  exists docs w',
    save_multiple_crew_documents E UPLOAD_FOLDER secure_filename splitext
      (FileList (files1 ++ Some f :: files2)) crew_id ty cat w
    = (Raise Py.OSError, w')
    /\ crew_documents (session w') = (crew_documents (session w) ++ docs)%list
    /\ List.map original_filename docs
       = List.map (fun file => default "" (file ≫= fs_filename))
           (List.filter file_truthy files1)
    /\ (docs = [] /\ committed w' = committed w \/ committed w' = session w').
Proof.
  intros Hok Hf Hfail.
  destruct (save_each_prefix files1 crew_id ty cat [] w Hok)
    as (docs & w1 & Hrest & Hrows & Hnames & Htick & Hcommit).
  unfold save_multiple_crew_documents.
  assert (Ht : files_truthy (FileList (files1 ++ Some f :: files2)) = true)
    by (destruct files1; reflexivity).
  rewrite Ht. cbn [negb files_as_list]. rewrite Hrest. cbn [save_each].
  change (filename_truthy (Some f)) with (file_truthy (Some f)).
  rewrite Hf. cbn [andb]. rewrite mbind_run.
  rewrite save_crew_document_write_fails
    by (assumption || (rewrite Htick, <- Nat.add_1_r; exact Hfail)).
  eexists docs, _. split; [reflexivity|].
  cbn [session committed]. split; [exact Hrows|]. split; [exact Hnames|].
  destruct Hcommit as [[-> ->] | Hcommit]; [left; auto | right; exact Hcommit].
Qed.

End UploadInvariants.

(** ** Completion, continued *)

Lemma has_record_appended owner t t' news self ty :
  appended owner t t' news ->
  has_record t' self ty
  = has_record t self ty
    || existsb (fun d => (crew_id d =? self) && String.eqb (document_type d) ty) news.
Proof.
  intros (Hd & _). unfold has_record. now rewrite Hd, existsb_app.
Qed.





Section CompletionAfterUploads.

Variable E : nat -> Env.
Variable UPLOAD_FOLDER : string.
Variable secure_filename : string -> string.
Variable splitext : string -> string * string.


End CompletionAfterUploads.

(** ** The document listings *)







(** ** File names (allowed_file) *)

Lemma rsplit_dot_without_dot s : dot_in s = false -> rsplit_dot s = None.
Proof.
  induction s as [|c s IH]; [reflexivity|]. cbn [dot_in rsplit_dot].
  intros H. apply orb_false_iff in H as [Hc Hs]. now rewrite (IH Hs), Hc.
Qed.

(** [rsplit] undoes a join around the last dot. *)
Lemma rsplit_dot_join stem ext :
  dot_in ext = false -> rsplit_dot (stem +:+ "." +:+ ext) = Some (stem, ext).
Proof.
  intros Hext. induction stem as [|c stem IH].
  - change ("" +:+ "." +:+ ext) with (String "."%char ext). cbn [rsplit_dot].
    now rewrite (rsplit_dot_without_dot _ Hext).
  - change (String c stem +:+ "." +:+ ext) with (String c (stem +:+ "." +:+ ext)).
    cbn [rsplit_dot]. now rewrite IH.
Qed.

Lemma rsplit_dot_parts s stem ext :
  rsplit_dot s = Some (stem, ext) -> s = stem +:+ "." +:+ ext /\ dot_in ext = false.
Proof.
  revert stem ext. induction s as [|c s IH]; intros stem ext; [discriminate|].
  cbn [rsplit_dot]. destruct (rsplit_dot s) as [[a b]|] eqn:Hs.
  - intros [= <- <-]. destruct (IH a b eq_refl) as [-> Hb]. auto.
  - destruct (Ascii.eqb c ".") eqn:Hc; [|discriminate].
    intros [= <- <-]. apply Ascii.eqb_eq in Hc. subst c. split; [reflexivity|].
    clear IH. induction s as [|c s IH]; [reflexivity|].
    cbn [rsplit_dot dot_in] in *. destruct (rsplit_dot s) as [[a b]|]; [discriminate|].
    destruct (Ascii.eqb c "."); [discriminate|]. now rewrite IH.
Qed.

Lemma dot_in_rsplit s : dot_in s = true -> exists p, rsplit_dot s = Some p.
Proof.
  induction s as [|c s IH]; [discriminate|]. cbn [dot_in rsplit_dot].
  destruct (rsplit_dot s) as [[a b]|]; [eauto|].
  destruct (Ascii.eqb c "."); [eauto|]. cbn [orb]. intros H.
  destruct (IH H) as [p Hp]. discriminate.
Qed.

(** X17: [allowed_file] goes by the part after the last dot: a name
    without a dot is refused, and a name with one is stem, dot and a
    dot-free extension, and is accepted exactly when the lower-cased
    extension is listed. *)
Theorem allowed_file_by_last_extension filename allowed_extensions :
  (dot_in filename = false /\ allowed_file filename allowed_extensions = false)
  \/ exists stem ext,
       filename = stem +:+ "." +:+ ext
       /\ dot_in ext = false
       /\ allowed_file filename allowed_extensions
          = bool_decide (lower ext ∈ allowed_extensions).
Proof.
  unfold allowed_file. destruct (dot_in filename) eqn:Hdot; [right | left; auto].
  destruct (dot_in_rsplit _ Hdot) as [[stem ext] Hsplit]. rewrite Hsplit.
  destruct (rsplit_dot_parts _ _ _ Hsplit) as [Hname Hext].
  exists stem, ext. auto.
Qed.

Lemma lower_char_idempotent c : lower_char (lower_char c) = lower_char c.
Proof.
  destruct c as [[] [] [] [] [] [] [] []]; vm_compute; reflexivity.
Qed.

Lemma lower_idempotent s : lower (lower s) = lower s.
Proof.
  induction s as [|c s IH]; [reflexivity|].
  cbn [lower]. now rewrite lower_char_idempotent, IH.
Qed.

(** X18: an entry of the allowed list that is not in lower case never
    lets a name through: the answer is the same with such entries
    removed from the list. *)
Theorem allowed_file_ignores_unlowered_entries filename allowed_extensions :
  allowed_file filename allowed_extensions
  = allowed_file filename
      (List.filter (fun e => String.eqb (lower e) e) allowed_extensions).
Proof.
  unfold allowed_file. destruct (dot_in filename); [|reflexivity].
  destruct (rsplit_dot filename) as [[stem ext]|]; [|reflexivity].
  cbn [andb]. apply bool_decide_ext.
  rewrite !list_elem_of_In, filter_In, String.eqb_eq.
  split; [|tauto]. intros H. split; [exact H | apply lower_idempotent].
Qed.

Example allowed_file_cases :
  allowed_file "scan.PDF" ["pdf"; "png"] = true
  /\ allowed_file "archive.tar.gz" ["tar"] = false
  /\ allowed_file "README" ["pdf"] = false
  /\ allowed_file "scan.pdf" ["PDF"] = false
  /\ allowed_file ".pdf" ["pdf"] = true
  /\ allowed_file "scan." ["pdf"] = false.
Proof. vm_compute. auto 10. Qed.

(** ** The legacy upload helper (save_uploaded_file) *)

Lemma path_join_nested (folder sub x : string) :
  sub <> "" ->
  String.eqb (substring (String.length sub - 1) 1 sub) "/" = false ->
  Py.path_join (Py.path_join folder sub) x = Py.path_join folder (sub +:+ "/" +:+ x).
Proof.
  intros Hne Hlast.
  assert (Hjoin : forall p, Py.path_join (p +:+ sub) x = p +:+ sub +:+ "/" +:+ x).
  { intros p. unfold Py.path_join.
    destruct (p +:+ sub) eqn:Hp.
    - destruct p; [change ("" +:+ sub) with sub in Hp; congruence | discriminate].
    - rewrite <- Hp, last_char_app, Hlast by assumption.
      now rewrite !app_assoc_string. }
  destruct folder as [|c folder]; [apply (Hjoin "")|].
  unfold Py.path_join at 2 3.
  destruct (String.eqb (substring (String.length (String c folder) - 1) 1
                          (String c folder)) "/").
  - apply Hjoin.
  - rewrite <- app_assoc_string, Hjoin, !app_assoc_string. reflexivity.
Qed.

Section LegacyUpload.

Variable E : nat -> Env.
Variable UPLOAD_FOLDER : string.
Variable secure_filename : string -> string.
Variable splitext : string -> string * string.

Lemma save_uploaded_file_run f folder_type w :
  file_truthy (Some f) = true ->
  let unique := legacy_filename_of secure_filename splitext folder_type f
                  (uuid4_hex (E (tick w))) in
  save_uploaded_file E UPLOAD_FOLDER secure_filename splitext (Some f) folder_type w
  = if save_ok (E (S (tick w))) then
      (Return (Some (folder_type +:+ "/" +:+ unique)),
       {| session := session w; committed := committed w;
          disk := <[os_path_join (os_path_join UPLOAD_FOLDER folder_type) unique
                    := stream f]> (disk w);
          flashes := flashes w; tick := S (S (tick w)) |})
    else
      (Raise Py.OSError,
       {| session := session w; committed := committed w; disk := disk w;
          flashes := flashes w; tick := S (S (tick w)) |}).
Proof.
  intros Hf. cbn zeta. unfold save_uploaded_file, legacy_filename_of.
  change (filename_truthy (Some f)) with (file_truthy (Some f)). rewrite Hf.
  cbn [andb]. destruct (splitext _) as [name ext].
  unfold mbind, M_bind, ask, file_save, mbind, M_bind, ask. cbn.
  destruct (save_ok (E (S (tick w)))); reflexivity.
Qed.

(** X19: the legacy helper never touches the tables or the flashed
    messages; for a missing or nameless file it returns None and changes
    nothing (no oracle entry is used); for a named file it returns a
    name exactly when the write succeeded, and raises OSError with the
    disk as before when it failed. *)
Theorem save_uploaded_file_effect file folder_type w :
  let r := save_uploaded_file E UPLOAD_FOLDER secure_filename splitext
             file folder_type w in
  session r.2 = session w /\ committed r.2 = committed w
  /\ flashes r.2 = flashes w
  /\ (file_truthy file = false -> r = (Return None, w))
  /\ (file_truthy file = true ->
        if save_ok (E (S (tick w)))
        then exists name, r.1 = Return (Some name)
        else r.1 = Raise Py.OSError /\ disk r.2 = disk w).
Proof.
  cbn zeta. destruct (file_truthy file) eqn:Hf.
  - destruct file as [f|]; [|discriminate].
    rewrite (save_uploaded_file_run f folder_type w Hf).
    destruct (save_ok (E (S (tick w)))); cbn; repeat split; eauto; discriminate.
  - assert (Hr : save_uploaded_file E UPLOAD_FOLDER secure_filename splitext
                   file folder_type w = (Return None, w)).
    { unfold save_uploaded_file. now rewrite Hf. }
    rewrite Hr. cbn. repeat split; auto; discriminate.
Qed.

(** X20: for a plain folder name, a named file and a write that
    succeeds, the name the legacy helper returns starts with the folder
    and a slash, and joined to the upload folder it is the path that now
    holds the file's bytes. *)
Theorem save_uploaded_file_returns_its_path f folder_type w :
  plain_folder folder_type ->
  file_truthy (Some f) = true ->
  save_ok (E (S (tick w))) = true ->
  let r := save_uploaded_file E UPLOAD_FOLDER secure_filename splitext
             (Some f) folder_type w in
  exists unique,
    r.1 = Return (Some (folder_type +:+ "/" +:+ unique))
    /\ disk r.2 !! os_path_join UPLOAD_FOLDER (folder_type +:+ "/" +:+ unique)
       = Some (stream f).
Proof.
  intros [Hfirst Hlast] Hf Hok. cbn zeta.
  rewrite (save_uploaded_file_run f folder_type w Hf), Hok. cbn [fst snd disk].
  eexists. split; [reflexivity|].
  destruct folder_type as [|c folder]; [contradiction|].
  assert (Hrel : forall s, os_path_join s (String c folder) = Py.path_join s (String c folder)).
  { intros s. unfold os_path_join.
    destruct c as [[] [] [] [] [] [] [] []]; try reflexivity. now contradiction Hfirst. }
  assert (Hrel' : forall s rest, os_path_join s (String c folder +:+ rest)
                                 = Py.path_join s (String c folder +:+ rest)).
  { intros s rest. change (String c folder +:+ rest) with (String c (folder +:+ rest)).
    unfold os_path_join.
    destruct c as [[] [] [] [] [] [] [] []]; try reflexivity. now contradiction Hfirst. }
  unfold legacy_filename_of. destruct (splitext _) as [name ext].
  rewrite Hrel, !Hrel', path_join_nested by (assumption || discriminate).
  apply lookup_insert_eq.
Qed.

End LegacyUpload.

(** ** Stored file names *)

Lemma append_inj_l (a x y : string) : a +:+ x = a +:+ y -> x = y.
Proof.
  induction a as [|c a IH]; [auto|].
  change (String c a +:+ x) with (String c (a +:+ x)).
  change (String c a +:+ y) with (String c (a +:+ y)).
  intros [= H]. auto.
Qed.

Lemma append_same_length (p1 r1 p2 r2 : string) :
  String.length p1 = String.length p2 -> p1 +:+ r1 = p2 +:+ r2 -> p1 = p2.
Proof.
  revert p2. induction p1 as [|c p1 IH]; intros [|c2 p2]; try discriminate;
    [reflexivity|].
  change (String c p1 +:+ r1) with (String c (p1 +:+ r1)).
  change (String c2 p2 +:+ r2) with (String c2 (p2 +:+ r2)).
  intros [= Hlen] [= -> H]. f_equal. now apply IH.
Qed.

Lemma path_join_inj (a x y : string) : Py.path_join a x = Py.path_join a y -> x = y.
Proof.
  unfold Py.path_join. destruct a as [|c a]; [auto|].
  destruct (String.eqb _ "/"); intros H.
  - now apply append_inj_l in H.
  - apply append_inj_l in H. now apply (append_inj_l "/") in H.
Qed.

Section StoredNames.

Variable E : nat -> Env.
Variable UPLOAD_FOLDER : string.
Variable secure_filename : string -> string.
Variable splitext : string -> string * string.

(** Two stored uploads in a row. *)
Lemma save_crew_document_twice f1 f2 owner1 ty1 cat1 owner2 ty2 cat2 w :
  file_truthy (Some f1) = true ->
  file_truthy (Some f2) = true ->
  save_ok (E (S (tick w))) = true ->
  save_ok (E (S (S (S (S (tick w)))))) = true ->
  let u1 := unique_filename_of secure_filename splitext f1 (uuid4_hex (E (tick w))) in
  let u2 := unique_filename_of secure_filename splitext f2
              (uuid4_hex (E (S (S (S (tick w)))))) in
  exists d1 w1 d2 w2,
    save_crew_document E UPLOAD_FOLDER secure_filename splitext
      (Some f1) owner1 ty1 cat1 w = (Return (Some d1), w1)
    /\ save_crew_document E UPLOAD_FOLDER secure_filename splitext
         (Some f2) owner2 ty2 cat2 w1 = (Return (Some d2), w2)
    /\ filename d1 = "crew_documents/" +:+ u1
    /\ filename d2 = "crew_documents/" +:+ u2
    /\ doc_id d2 = doc_id d1 + 1
    /\ file_size d1 = Some (Py.PyInt (Z.of_nat (length (stream f1))))
    /\ crew_documents (session w2) = (crew_documents (session w) ++ [d1; d2])%list
    /\ disk w2
       = <[Py.path_join UPLOAD_FOLDER (filename d2) := stream f2]>
           (<[Py.path_join UPLOAD_FOLDER (filename d1) := stream f1]> (disk w)).
Proof.
  intros Hf1 Hf2 Hok1 Hok2. cbn zeta. do 4 eexists.
  split; [apply save_crew_document_saved; assumption|].
  split; [apply save_crew_document_saved; assumption|].
  cbn [filename doc_id file_size session crew_documents disk tick next_doc_id].
  rewrite <- !path_join_crew_documents, <- app_assoc. auto 10.
Qed.

(** X21: when the first eight characters [uuid4] gives to two uploads
    differ (and are as many), the two rows get different stored names
    and, after both uploads, each name holds the bytes of its own
    file. *)
Theorem distinct_uuid_prefixes_keep_both_files
    f1 f2 owner1 ty1 cat1 owner2 ty2 cat2 w :
  file_truthy (Some f1) = true ->
  file_truthy (Some f2) = true ->
  save_ok (E (S (tick w))) = true ->
  save_ok (E (S (S (S (S (tick w)))))) = true ->
  String.length (substring 0 8 (uuid4_hex (E (tick w))))
  = String.length (substring 0 8 (uuid4_hex (E (S (S (S (tick w))))))) ->
  substring 0 8 (uuid4_hex (E (tick w)))
  <> substring 0 8 (uuid4_hex (E (S (S (S (tick w)))))) ->
  exists d1 w1 d2 w2,
    save_crew_document E UPLOAD_FOLDER secure_filename splitext
      (Some f1) owner1 ty1 cat1 w = (Return (Some d1), w1)
    /\ save_crew_document E UPLOAD_FOLDER secure_filename splitext
         (Some f2) owner2 ty2 cat2 w1 = (Return (Some d2), w2)
    /\ filename d1 <> filename d2
    /\ disk w2 !! Py.path_join UPLOAD_FOLDER (filename d1) = Some (stream f1)
    /\ disk w2 !! Py.path_join UPLOAD_FOLDER (filename d2) = Some (stream f2).
Proof.
  intros Hf1 Hf2 Hok1 Hok2 Hlen Hne.
  destruct (save_crew_document_twice f1 f2 owner1 ty1 cat1 owner2 ty2 cat2 w
              Hf1 Hf2 Hok1 Hok2)
    as (d1 & w1 & d2 & w2 & Hrun1 & Hrun2 & Hn1 & Hn2 & _ & _ & _ & Hdisk).
  exists d1, w1, d2, w2. split; [exact Hrun1|]. split; [exact Hrun2|].
  assert (Hnames : filename d1 <> filename d2).
  { rewrite Hn1, Hn2. unfold unique_filename_of.
    destruct (splitext (secure_filename (default "" (fs_filename f1)))) as [n1 e1].
    destruct (splitext (secure_filename (default "" (fs_filename f2)))) as [n2 e2].
    intros H. apply append_inj_l in H. apply (append_inj_l "crew_") in H.
    apply append_same_length in H; [contradiction | exact Hlen]. }
  split; [exact Hnames|]. rewrite Hdisk. split.
  - rewrite lookup_insert_ne, lookup_insert_eq; [reflexivity|].
    intros H. apply path_join_inj in H. congruence.
  - apply lookup_insert_eq.
Qed.

(** X22: when two uploads of files with the same name get the same
    first eight characters from [uuid4], both rows carry one stored
    name, and after the second upload that name holds the bytes of the
    second file while the first row still records the first file's
    size. *)
Theorem equal_uuid_prefix_overwrites f1 f2 owner1 ty1 cat1 owner2 ty2 cat2 w :
  file_truthy (Some f1) = true ->
  file_truthy (Some f2) = true ->
  save_ok (E (S (tick w))) = true ->
  save_ok (E (S (S (S (S (tick w)))))) = true ->
  fs_filename f1 = fs_filename f2 ->
  substring 0 8 (uuid4_hex (E (tick w)))
  = substring 0 8 (uuid4_hex (E (S (S (S (tick w)))))) ->
  exists d1 w1 d2 w2,
    save_crew_document E UPLOAD_FOLDER secure_filename splitext
      (Some f1) owner1 ty1 cat1 w = (Return (Some d1), w1)
    /\ save_crew_document E UPLOAD_FOLDER secure_filename splitext
         (Some f2) owner2 ty2 cat2 w1 = (Return (Some d2), w2)
    /\ doc_id d1 <> doc_id d2
    /\ filename d1 = filename d2
    /\ In d1 (crew_documents (session w2)) /\ In d2 (crew_documents (session w2))
    /\ disk w2 !! Py.path_join UPLOAD_FOLDER (filename d1) = Some (stream f2)
    /\ file_size d1 = Some (Py.PyInt (Z.of_nat (length (stream f1)))).
Proof.
  intros Hf1 Hf2 Hok1 Hok2 Hsame Hprefix.
  destruct (save_crew_document_twice f1 f2 owner1 ty1 cat1 owner2 ty2 cat2 w
              Hf1 Hf2 Hok1 Hok2)
    as (d1 & w1 & d2 & w2 & Hrun1 & Hrun2 & Hn1 & Hn2 & Hid & Hsize & Hrows & Hdisk).
  exists d1, w1, d2, w2. split; [exact Hrun1|]. split; [exact Hrun2|].
  assert (Hnames : filename d1 = filename d2).
  { rewrite Hn1, Hn2. unfold unique_filename_of. now rewrite Hsame, Hprefix. }
  split; [lia|]. split; [exact Hnames|].
  rewrite Hrows, !in_app_iff. cbn [In].
  split; [auto|]. split; [auto|]. split; [|exact Hsize].
  rewrite Hdisk, Hnames. apply lookup_insert_eq.
Qed.

End StoredNames.

(** ** Concrete runs of the further properties *)

Lemma save_multiple_crew_documents_stops_at_failed_write_witness :
  exists docs w',
    save_multiple_crew_documents SampleMore.E_second_write_fails
      Sample.UPLOAD_FOLDER Sample.secure_filename Sample.splitext
      (FileList ([Some Sample.passport_scan]
                 ++ Some Sample.passport_rescan :: [Some SampleMore.passport_again]))
      42 "passport" "identity" Sample.world
    = (Raise Py.OSError, w')
    /\ crew_documents (session w')
       = (crew_documents (session Sample.world) ++ docs)%list
    /\ List.map original_filename docs
       = List.map (fun file => default "" (file ≫= fs_filename))
           (List.filter file_truthy [Some Sample.passport_scan])
    /\ (docs = [] /\ committed w' = committed Sample.world
        \/ committed w' = session w').
Proof.
  apply (save_multiple_crew_documents_stops_at_failed_write
           SampleMore.E_second_write_fails Sample.UPLOAD_FOLDER
           Sample.secure_filename Sample.splitext
           [Some Sample.passport_scan] Sample.passport_rescan
           [Some SampleMore.passport_again] 42 "passport" "identity" Sample.world).
  - simpl. intros j Hj. assert (j = 0%nat) as -> by lia. reflexivity.
  - reflexivity.
  - reflexivity.
Defined.


Lemma save_uploaded_file_returns_its_path_witness :
  let r := save_uploaded_file Sample.E Sample.UPLOAD_FOLDER Sample.secure_filename
             Sample.splitext (Some Sample.passport_scan) "crew" Sample.world in
  exists unique,
    r.1 = Return (Some ("crew" +:+ "/" +:+ unique))
    /\ disk r.2 !! os_path_join Sample.UPLOAD_FOLDER ("crew" +:+ "/" +:+ unique)
       = Some (stream Sample.passport_scan).
Proof.
  apply (save_uploaded_file_returns_its_path Sample.E Sample.UPLOAD_FOLDER
           Sample.secure_filename Sample.splitext Sample.passport_scan "crew"
           Sample.world).
  - split; [discriminate | reflexivity].
  - reflexivity.
  - reflexivity.
Defined.

Example save_uploaded_file_crew :
  (save_uploaded_file Sample.E Sample.UPLOAD_FOLDER Sample.secure_filename
     Sample.splitext (Some Sample.passport_scan) "crew" Sample.world).1
  = Return (Some "crew/crew_9f1c2ab4_passport.pdf").
Proof. vm_compute. reflexivity. Qed.

Lemma distinct_uuid_prefixes_keep_both_files_witness :
  exists d1 w1 d2 w2,
    save_crew_document SampleMore.E_varied Sample.UPLOAD_FOLDER
      Sample.secure_filename Sample.splitext
      (Some Sample.passport_scan) 42 "passport" "identity" Sample.world
    = (Return (Some d1), w1)
    /\ save_crew_document SampleMore.E_varied Sample.UPLOAD_FOLDER
         Sample.secure_filename Sample.splitext
         (Some SampleMore.passport_again) 42 "passport" "identity" w1
       = (Return (Some d2), w2)
    /\ filename d1 <> filename d2
    /\ disk w2 !! Py.path_join Sample.UPLOAD_FOLDER (filename d1)
       = Some (stream Sample.passport_scan)
    /\ disk w2 !! Py.path_join Sample.UPLOAD_FOLDER (filename d2)
       = Some (stream SampleMore.passport_again).
Proof.
  apply (distinct_uuid_prefixes_keep_both_files SampleMore.E_varied
           Sample.UPLOAD_FOLDER Sample.secure_filename Sample.splitext
           Sample.passport_scan SampleMore.passport_again
           42 "passport" "identity" 42 "passport" "identity" Sample.world).
  - reflexivity.
  - reflexivity.
  - reflexivity.
  - reflexivity.
  - vm_compute. reflexivity.
  - vm_compute. discriminate.
Defined.

Lemma equal_uuid_prefix_overwrites_witness :
  exists d1 w1 d2 w2,
    save_crew_document Sample.E Sample.UPLOAD_FOLDER Sample.secure_filename
      Sample.splitext (Some Sample.passport_scan) 42 "passport" "identity"
      Sample.world
    = (Return (Some d1), w1)
    /\ save_crew_document Sample.E Sample.UPLOAD_FOLDER Sample.secure_filename
         Sample.splitext (Some SampleMore.passport_again) 42 "passport" "identity"
         w1
       = (Return (Some d2), w2)
    /\ doc_id d1 <> doc_id d2
    /\ filename d1 = filename d2
    /\ In d1 (crew_documents (session w2)) /\ In d2 (crew_documents (session w2))
    /\ disk w2 !! Py.path_join Sample.UPLOAD_FOLDER (filename d1)
       = Some (stream SampleMore.passport_again)
    /\ file_size d1
       = Some (Py.PyInt (Z.of_nat (length (stream Sample.passport_scan)))).
Proof.
  apply (equal_uuid_prefix_overwrites Sample.E Sample.UPLOAD_FOLDER
           Sample.secure_filename Sample.splitext
           Sample.passport_scan SampleMore.passport_again
           42 "passport" "identity" 42 "passport" "identity" Sample.world).
  - reflexivity.
  - reflexivity.
  - reflexivity.
  - reflexivity.
  - reflexivity.
  - reflexivity.
Defined.

(** ** Staff members *)

Lemma staff_status_names_lookup (s : Z) :
  staff_status_names !! s
  = if decide (s = 1) then Some "Screening"
    else if decide (s = 3) then Some "Approved"
    else if decide (s = -1) then Some "Rejected"
    else None.
Proof.
  unfold staff_status_names.
  repeat (rewrite lookup_insert; repeat case_decide; try congruence; try lia).
  apply lookup_empty.
Qed.

(** X23: for a staff member in the store, an authenticated status
    request is always accepted; approve and reject set status 3 and -1
    and the note, and every other action ('flag' included) leaves status
    and notes as they are and flashes nothing; updated_at is refreshed
    and the row committed in each case.  A status among 1, 3, -1 stays
    among them, so its label is never "Unknown". *)
Theorem update_staff_status_reduced_workflow E req staff_id sw s :
  authenticated req = true ->
  staff_session sw !! staff_id = Some s ->
  exists s' sw',
    update_staff_status E req staff_id sw
    = (Return (Redirect "staff_profile" [("staff_id", pretty staff_id)]), sw')
    /\ staff_session sw' !! staff_id = Some s'
    /\ staff_committed sw' = staff_session sw'
    /\ staff_updated_at s' = utcnow (E (staff_tick sw))
    /\ (form req !! "action" = Some "approve" ->
          staff_status s' = 3
          /\ staff_admin_notes s' = Some (default "" (form req !! "notes")))
    /\ (form req !! "action" = Some "reject" ->
          staff_status s' = -1
          /\ staff_admin_notes s' = Some (default "" (form req !! "notes")))
    /\ (form req !! "action" <> Some "approve" ->
        form req !! "action" <> Some "reject" ->
          staff_status s' = staff_status s
          /\ staff_admin_notes s' = staff_admin_notes s
          /\ staff_flashes sw' = staff_flashes sw)
    /\ (In (staff_status s) [1; 3; -1] ->
          In (staff_status s') [1; 3; -1]
          /\ staff_get_status_name s' <> "Unknown").
Proof.
  intros Hauth Hs. unfold update_staff_status. rewrite Hauth, Hs.
  assert (Hlabel : forall x : StaffMember,
             In (staff_status x) [1; 3; -1] -> staff_get_status_name x <> "Unknown").
  { intros x Hx. unfold staff_get_status_name. rewrite staff_status_names_lookup.
    cbn in Hx. repeat case_decide; cbn; try discriminate. lia. }
  repeat case_decide; eexists _, _; (split; [reflexivity|]);
    cbn [staff_session staff_committed staff_flashes];
    (split; [apply lookup_insert_eq|]); (split; [reflexivity|]);
    (split; [reflexivity|]);
    cbn [staff_status staff_admin_notes staff_touch staff_decide].
  - split; [auto|]. split; [congruence|]. split; [congruence|].
    intros _. split; [cbn; auto | apply Hlabel; cbn; auto].
  - split; [congruence|]. split; [auto|]. split; [congruence|].
    intros _. split; [cbn; auto | apply Hlabel; cbn; auto].
  - split; [congruence|]. split; [congruence|].
    split; [intros _ _; rewrite app_nil_r; auto|].
    intros Hin. split; [exact Hin | apply Hlabel; exact Hin].
Qed.

Lemma update_staff_status_reduced_workflow_witness :
  exists s' sw',
    update_staff_status Sample.E (Sample.admin_request "flag" "n/a") 7
      SampleMore.staff_world
    = (Return (Redirect "staff_profile" [("staff_id", "7")]), sw')
    /\ staff_session sw' !! 7 = Some s'
    /\ staff_committed sw' = staff_session sw'
    /\ staff_updated_at s' = 1754723152
    /\ (form (Sample.admin_request "flag" "n/a") !! "action" = Some "approve" ->
          staff_status s' = 3
          /\ staff_admin_notes s'
             = Some (default "" (form (Sample.admin_request "flag" "n/a") !! "notes")))
    /\ (form (Sample.admin_request "flag" "n/a") !! "action" = Some "reject" ->
          staff_status s' = -1
          /\ staff_admin_notes s'
             = Some (default "" (form (Sample.admin_request "flag" "n/a") !! "notes")))
    /\ (form (Sample.admin_request "flag" "n/a") !! "action" <> Some "approve" ->
        form (Sample.admin_request "flag" "n/a") !! "action" <> Some "reject" ->
          staff_status s' = staff_status SampleMore.staff
          /\ staff_admin_notes s' = staff_admin_notes SampleMore.staff
          /\ staff_flashes sw' = staff_flashes SampleMore.staff_world)
    /\ (In (staff_status SampleMore.staff) [1; 3; -1] ->
          In (staff_status s') [1; 3; -1]
          /\ staff_get_status_name s' <> "Unknown").
Proof.
  apply (update_staff_status_reduced_workflow Sample.E
           (Sample.admin_request "flag" "n/a") 7 SampleMore.staff_world
           SampleMore.staff).
  - reflexivity.
  - vm_compute. reflexivity.
Defined.
